(** * Graphyy: the expression pipeline, the statistics kit, the curve
      utilities and the undo history of the store, embedded from the
      TypeScript sources.

    Numbers are IEEE 754 binary64 values ([float], the kernel's primitive
    floats), which is what a JavaScript [number] is.  Strings are sequences
    of UTF-16 code units, which is what a JavaScript string is; regular
    expressions without the [u] flag work on code units.

    The file has two parts: the embedding (one module per source file), then
    the theorems. *)

From Stdlib Require Import ZArith NArith List String Ascii Bool Lia Floats.
From stdpp Require Import base option list strings gmap.

(* Decimal literals such as 1e-10 denote the nearest double, as in JavaScript. *)
#[local] Set Warnings "-inexact-float".

(* A value that holds values (an object and its properties) gets the
   induction principle of a flat type. *)
#[local] Set Warnings "-register-all".

(* ===================================================================== *)
(** * Part I: the embedding                                               *)
(* ===================================================================== *)

(** ** JavaScript strings and numbers *)

Abbreviation jsstring := (list N).

(** An ASCII literal as a JavaScript string. *)
Definition js (s : string) : jsstring :=
  map N_of_ascii (list_ascii_of_string s).

Definition inRange (lo hi c : N) : bool := (lo <=? c)%N && (c <=? hi)%N.

(** [\d], [\w], line terminators and [\s] of ECMAScript regular expressions;
    [\s] is also the set [String.prototype.trim] strips. *)
Definition isDigit (c : N) : bool := inRange 48 57 c.

Definition isWordChar (c : N) : bool :=
  inRange 97 122 c || inRange 65 90 c || isDigit c || (c =? 95)%N.

Definition isLineTerminator (c : N) : bool :=
  (c =? 10)%N || (c =? 13)%N || (c =? 8232)%N || (c =? 8233)%N.

Definition isWhiteSpace (c : N) : bool :=
  inRange 9 13 c || (c =? 32)%N || (c =? 160)%N || (c =? 5760)%N
  || inRange 8192 8202 c || (c =? 8232)%N || (c =? 8233)%N
  || (c =? 8239)%N || (c =? 8287)%N || (c =? 12288)%N || (c =? 65279)%N.

Fixpoint trimStart (s : jsstring) : jsstring :=
  match s with
  | [] => []
  | c :: rest => if isWhiteSpace c then trimStart rest else s
  end.

Definition trimEnd (s : jsstring) : jsstring := rev (trimStart (rev s)).

(** [String.prototype.trim]. *)
Definition trim (s : jsstring) : jsstring := trimEnd (trimStart s).

(** [String.prototype.startsWith]. *)
Fixpoint startsWith (s p : jsstring) : bool :=
  match p, s with
  | [], _ => true
  | _ :: _, [] => false
  | c :: p', d :: s' => (c =? d)%N && startsWith s' p'
  end.

(** [String.prototype.includes]. *)
Fixpoint includes (s sub : jsstring) : bool :=
  startsWith s sub
  || match s with
     | [] => false
     | _ :: rest => includes rest sub
     end.

(** [\b] between the code unit before the position ([None] at the start of the
    string) and the code unit after it ([None] at its end). *)
Definition isWordOpt (c : option N) : bool :=
  match c with Some c => isWordChar c | None => false end.

Definition wordBoundary (prev next : option N) : bool :=
  negb (eqb (isWordOpt prev) (isWordOpt next)).

(** [str.replace(/re/g, replacement)] for a regular expression given as a
    matcher: at a position, with the code unit before it and the rest of the
    string, the matcher answers the length of the match there, if any.  The
    scan goes left to right and resumes after each match; an empty match
    inserts the replacement and moves one code unit on.  [skip] counts the
    code units of the current match still to be dropped. *)
Fixpoint replaceAll_from (matcher : option N -> jsstring -> option nat)
    (replacement : jsstring) (prev : option N) (skip : nat) (s : jsstring)
    : jsstring :=
  match s with
  | [] =>
      match skip, matcher prev [] with
      | O, Some _ => replacement
      | _, _ => []
      end
  | c :: rest =>
      match skip with
      | S k => replaceAll_from matcher replacement (Some c) k rest
      | O =>
          match matcher prev s with
          | Some (S k) =>
              replacement ++ replaceAll_from matcher replacement (Some c) k rest
          | Some O =>
              replacement ++ c :: replaceAll_from matcher replacement (Some c) 0 rest
          | None => c :: replaceAll_from matcher replacement (Some c) 0 rest
          end
      end
  end.

Definition replaceAll (matcher : option N -> jsstring -> option nat)
    (replacement s : jsstring) : jsstring :=
  replaceAll_from matcher replacement None 0 s.

(** The matcher of a one-code-unit pattern such as [/π/]. *)
Definition matchUnit (u : N) (_ : option N) (s : jsstring) : option nat :=
  match s with
  | c :: _ => if (c =? u)%N then Some 1 else None
  | [] => None
  end.

(** The matcher of a literal pattern such as [/\.\./]. *)
Definition matchLiteral (lit : jsstring) (_ : option N) (s : jsstring)
    : option nat :=
  if startsWith s lit then Some (length lit) else None.

(** IEEE 754 doubles: the global [isFinite], [Math.abs], [Math.sqrt], and the
    conversion of an integer (an array length, a loop counter) to a double,
    exact below 2^53. *)
Definition isFinite (v : float) : bool := PrimFloat.is_finite v.
Definition Math_abs (v : float) : float := PrimFloat.abs v.
Definition Math_sqrt (v : float) : float := PrimFloat.sqrt v.

Definition ofZ (z : Z) : float :=
  if (z <? 0)%Z
  then PrimFloat.opp (PrimFloat.of_uint63 (Uint63.of_Z (- z)))
  else PrimFloat.of_uint63 (Uint63.of_Z z).

Definition ofNat (n : nat) : float := ofZ (Z.of_nat n).

(** [a > b] on doubles (false when either side is NaN). *)
Definition gtb (a b : float) : bool := PrimFloat.ltb b a.

(** [a % b] on doubles: the remainder of the truncating division, with the
    sign of [a].  It is exact: both operands are integers times a power of
    two, and the remainder of these integers is taken. *)
Definition remainder (a b : float) : float :=
  match Prim2SF a, Prim2SF b with
  | S754_nan, _ | _, S754_nan => PrimFloat.nan
  | S754_infinity _, _ => PrimFloat.nan
  | _, S754_zero _ => PrimFloat.nan
  | S754_zero _, _ => a
  | S754_finite _ _ _, S754_infinity _ => a
  | S754_finite sa ma ea, S754_finite _ mb eb =>
      let e := Z.min ea eb in
      let r := ((Z.pos ma * 2 ^ (ea - e)) mod (Z.pos mb * 2 ^ (eb - e)))%Z in
      let magnitude := FloatOps.Z.ldexp (ofZ r) e in
      if sa then PrimFloat.opp magnitude else magnitude
  end.

(** [Math.min] and [Math.max] of two numbers: NaN when either is NaN, and
    the negative zero counts as smaller than the positive one. *)
Definition Math_min (a b : float) : float :=
  if PrimFloat.is_nan a || PrimFloat.is_nan b then PrimFloat.nan
  else if (a <? b)%float then a
  else if (b <? a)%float then b
  else if PrimFloat.get_sign a then a else b.

Definition Math_max (a b : float) : float :=
  if PrimFloat.is_nan a || PrimFloat.is_nan b then PrimFloat.nan
  else if (a <? b)%float then b
  else if (b <? a)%float then a
  else if PrimFloat.get_sign a then b else a.

(** [str.split(sep)] for a separator of one code unit, and
    [parts.join(sep)]. *)
Fixpoint split (sep : N) (s : jsstring) : list jsstring :=
  match s with
  | [] => [[]]
  | c :: rest =>
      if (c =? sep)%N then [] :: split sep rest
      else
        match split sep rest with
        | part :: parts => (c :: part) :: parts
        | [] => [[c]]
        end
  end.

Fixpoint join (sep : jsstring) (parts : list jsstring) : jsstring :=
  match parts with
  | [] => []
  | part :: rest =>
      match rest with
      | [] => part
      | _ :: _ => part ++ sep ++ join sep rest
      end
  end.

(** A thrown JavaScript value: an [Error] instance with its message, or
    anything else. *)
Inductive Thrown : Type :=
| ThrownError (message : jsstring)
| ThrownOther.

(** The outcome of a call that may throw. *)
Inductive Outcome (A : Type) : Type :=
| Returns (value : A)
| Throws (thrown : Thrown).
Arguments Returns {A} value.
Arguments Throws {A} thrown.

(** Sequencing calls that may throw: the first throw ends the sequence. *)
#[export] Instance Outcome_bind : MBind Outcome :=
  fun A B f outcome =>
    match outcome with
    | Returns value => f value
    | Throws thrown => Throws thrown
    end.

Record Point2D : Type := mkPoint { x : float; y : float }.

(* --------------------------------------------------------------------- *)
(** ** src/utils/mathUtils/index.ts                                       *)
(* --------------------------------------------------------------------- *)

Module MathUtils.

(** *** sanitizeExpression *)

(** The character class of the first replacement: single quote (39), double
    quote (34), backtick (96) and semicolon (59). *)
Definition isQuote (c : N) : bool :=
  (c =? 39)%N || (c =? 34)%N || (c =? 96)%N || (c =? 59)%N.

Definition matchQuote (_ : option N) (s : jsstring) : option nat :=
  match s with
  | c :: _ => if isQuote c then Some 1 else None
  | [] => None
  end.

Definition dangerousKeywords : list jsstring :=
  [js "eval"; js "Function"; js "require"; js "import"; js "export"].

(** [/\b(eval|Function|require|import|export)\b/]: a boundary, the first
    alternative that is followed by a boundary. *)
Definition matchKeyword (prev : option N) (s : jsstring) : option nat :=
  if wordBoundary prev (head s)
  then
    length <$>
      find (fun kw => startsWith s kw
                      && wordBoundary (last kw) (s !! length kw))
           dangerousKeywords
  else None.

(** [.*?\}]: the shortest run of code units other than line terminators that
    a closing brace follows; the length includes the brace. *)
Fixpoint lazyUntilBrace (s : jsstring) : option nat :=
  match s with
  | [] => None
  | c :: rest =>
      if (c =? 125)%N then Some 1
      else if isLineTerminator c then None
      else S <$> lazyUntilBrace rest
  end.

(** [/\$\{.*?\}/]. *)
Definition matchTemplate (_ : option N) (s : jsstring) : option nat :=
  match s with
  | c1 :: c2 :: rest =>
      if (c1 =? 36)%N && (c2 =? 123)%N
      then (fun n => S (S n)) <$> lazyUntilBrace rest
      else None
  | _ => None
  end.

Definition sanitizeExpression (expression : jsstring) : jsstring :=
  (* Remove dangerous patterns *)
  let sanitized := replaceAll matchQuote [] expression in
  let sanitized := replaceAll matchKeyword [] sanitized in
  let sanitized := replaceAll (matchLiteral (js "..")) [] sanitized in
  let sanitized := replaceAll matchTemplate [] sanitized in
  (* Replace common mathematical notation *)
  let sanitized := replaceAll (matchUnit 215) (js "*") sanitized in
  let sanitized := replaceAll (matchUnit 247) (js "/") sanitized in
  let sanitized := replaceAll (matchUnit 960) (js "pi") sanitized in
  let sanitized := replaceAll (matchUnit 8730) (js "sqrt") sanitized in
  let sanitized := replaceAll (matchUnit 8734) (js "Infinity") sanitized in
  let sanitized := replaceAll (matchUnit 177) (js "+") sanitized in
  let sanitized := replaceAll (matchUnit 8776) (js "==") sanitized in
  trim sanitized.

(** *** safeEvaluate *)

(** [MathError] of the application's types: the kind, the message and the
    suggestions shown to the user. *)
Inductive ErrorType : Type := syntax | domain | computation | overflow.

Record MathError : Type := mkError {
  type : ErrorType;
  message : jsstring;
  suggestions : list jsstring
}.

(** A value of the JavaScript run time, as the expression engine can hand
    it back: a primitive value (the engine builds no symbol), a function,
    or an object with its data properties.  One of the engine's complex
    numbers is an object with the properties [re] and [im]; a matrix, a
    unit, a big number, a result set and an object literal such as
    [{im: 1}] are objects too. *)
Inductive JsValue : Type :=
| JUndefined
| JNull
| JBoolean (b : bool)
| JNumber (v : float)
| JBigInt (z : Z)
| JString (s : jsstring)
| JFunction
| JObject (properties : list (jsstring * JsValue)).

(** The complex number [re + im i] of the engine. *)
Definition JComplex (re im : float) : JsValue :=
  JObject [(js "re", JNumber re); (js "im", JNumber im)].

(** The property of an object under a key, if it has one. *)
Fixpoint getProperty (key : jsstring) (properties : list (jsstring * JsValue))
    : option JsValue :=
  match properties with
  | [] => None
  | (k, v) :: rest =>
      if bool_decide (k = key) then Some v else getProperty key rest
  end.

(** [key in object]. *)
Definition hasProperty (key : jsstring)
    (properties : list (jsstring * JsValue)) : bool :=
  match getProperty key properties with
  | Some _ => true
  | None => false
  end.

(** [object.key]: [undefined] when the object has no such property. *)
Definition property (key : jsstring)
    (properties : list (jsstring * JsValue)) : JsValue :=
  default JUndefined (getProperty key properties).

(** [v === null]. *)
Definition isNull (v : JsValue) : bool :=
  match v with
  | JNull => true
  | _ => false
  end.

(** What [safeEvaluate] returns: [{ result, error }].  The declared type of
    [result] is [number | null]; at run time it holds what the [try] block
    put there, which need not be a number. *)
Record Evaluation : Type := mkEvaluation {
  result : JsValue;
  error : option MathError
}.

(** A point as a sampler pushes it: [{ x, y }], a coordinate being a value
    that [safeEvaluate] handed over or a number computed from it. *)
Record JsPoint : Type := mkJsPoint { x_ : JsValue; y_ : JsValue }.

(** The outcome of ToNumeric: a number or a bigint. *)
Inductive Numeric : Type :=
| NNumber (v : float)
| NBigInt (z : Z).

(** What the run time does to a value used as a number, beyond the
    arithmetic of doubles: ToNumeric of a string (the number it spells), of
    a function and of an object (what its [valueOf] or [toString] returns,
    converted in turn, or what these throw; a TypeError when neither
    returns a primitive value); the operator [+] when an operand is a
    string, a bigint, a function or an object (concatenation, a sum, or
    what the conversion throws); and the messages of the TypeError for a
    bigint where a number is required, and for a bigint mixed with a
    number under an arithmetic operator.  A conversion is taken to be a
    function of the value, as the engine is taken to be a function of the
    expression and the scope. *)
Record Conversions : Type := mkConversions {
  toNumericOther : JsValue -> Outcome Numeric;
  plusOther : JsValue -> JsValue -> Outcome JsValue;
  toNumberMessage : jsstring;
  mixMessage : jsstring
}.

Abbreviation scope := (gmap jsstring float).

Definition computationError : Evaluation :=
  {| result := JNull;
     error := Some {| type := computation;
                      message := js "Result is not a finite number";
                      suggestions := [js "Check for division by zero";
                                      js "Verify domain restrictions"] |} |}.

Definition syntaxSuggestions : list jsstring :=
  [js "Check syntax"; js "Verify function names"; js "Check parentheses"].

(** The [catch] clause. *)
Definition catchBlock (thrown : Thrown) : Evaluation :=
  {| result := JNull;
     error := Some {| type := syntax;
                      message := match thrown with
                                 | ThrownError m => m
                                 | ThrownOther => js "Unknown error"
                                 end;
                      suggestions := syntaxSuggestions |} |}.

Section Engine.

(** The expression engine, [parse(sanitized).evaluate(scope)] of mathjs: it
    returns a value or throws. *)
Variable mathjs : jsstring -> scope -> Outcome JsValue.

(** The message of the [TypeError] that ['im' in null] throws. *)
Variable inOperatorMessage : jsstring.

(** The [try] block. *)
Definition tryBlock (expression : jsstring) (variables : scope)
    : Outcome Evaluation :=
  let sanitized := sanitizeExpression expression in
  let scope := variables in
  match mathjs sanitized scope with
  | Throws thrown => Throws thrown
  | Returns r =>
      match r with
      (* typeof null === 'object', and the [in] operator throws on it *)
      | JNull => Throws (ThrownError inOperatorMessage)
      (* Handle complex numbers: any object in which 'im' is a key *)
      | JObject properties =>
          if hasProperty (js "im") properties
          then Returns {| result := property (js "re") properties;
                          error := None |}
          else Returns computationError
      (* Check for invalid results *)
      | JNumber v =>
          if isFinite v
          then Returns {| result := JNumber v; error := None |}
          else Returns computationError
      | JUndefined | JBoolean _ | JBigInt _ | JString _ | JFunction =>
          Returns computationError
      end
  end.

Definition safeEvaluate (expression : jsstring) (variables : scope)
    : Evaluation :=
  match tryBlock expression variables with
  | Returns evaluation => evaluation
  | Throws thrown => catchBlock thrown
  end.

(** *** Results used as numbers *)

Variable conversions : Conversions.

(** ToNumeric. *)
Definition toNumeric (v : JsValue) : Outcome Numeric :=
  match v with
  | JUndefined => Returns (NNumber nan)
  | JNull => Returns (NNumber 0)
  | JBoolean b => Returns (NNumber (if b then 1 else 0))
  | JNumber u => Returns (NNumber u)
  | JBigInt z => Returns (NBigInt z)
  | JString _ | JFunction | JObject _ => toNumericOther conversions v
  end.

(** ToNumber: ToNumeric, a bigint being a TypeError. *)
Definition toNumber (v : JsValue) : Outcome float :=
  n ← toNumeric v;
  match n with
  | NNumber u => Returns u
  | NBigInt _ => Throws (ThrownError (toNumberMessage conversions))
  end.

(** The global [isFinite(v)]: ToNumber, then the test on the number. *)
Definition global_isFinite (v : JsValue) : Outcome bool :=
  u ← toNumber v; Returns (isFinite u).

(** A numeric value as an operand of [-], [*] or [/] whose other operand is
    a number: a bigint does not mix with it. *)
Definition withNumber (n : Numeric) : Outcome float :=
  match n with
  | NNumber u => Returns u
  | NBigInt _ => Throws (ThrownError (mixMessage conversions))
  end.

(** A value as such an operand. *)
Definition asOperand (v : JsValue) : Outcome float :=
  n ← toNumeric v; withNumber n.

(** [a - b]. *)
Definition minus (a b : JsValue) : Outcome Numeric :=
  left_ ← toNumeric a;
  right_ ← toNumeric b;
  match left_, right_ with
  | NNumber u, NNumber v => Returns (NNumber (u - v))
  | NBigInt y, NBigInt z => Returns (NBigInt (y - z))
  | _, _ => Throws (ThrownError (mixMessage conversions))
  end.

(** [a + b]: the sum of the numbers when both operands are undefined, null,
    a boolean or a number. *)
Definition plus (a b : JsValue) : Outcome JsValue :=
  match a, b with
  | (JUndefined | JNull | JBoolean _ | JNumber _),
    (JUndefined | JNull | JBoolean _ | JNumber _) =>
      u ← toNumber a; v ← toNumber b; Returns (JNumber (u + v))
  | _, _ => plusOther conversions a b
  end.

(** *** The samplers *)

(** [FunctionExpression]: only its expression is read here. *)
Record FunctionExpression : Type := { expression : jsstring }.

Record Range : Type := mkRange { min : float; max : float; step : float }.

(** The loops [for (let v = min; v <= max; v += step)] need not end (a step
    of zero, or one too small to move [v]); [fuel] bounds the iterations and
    [None] says it ran out.  A loop that ends returns its points, or throws
    what a conversion threw. *)
Fixpoint evaluateFunction_loop (fuel : nat) (func : FunctionExpression)
    (max step : float) (additionalVariables : scope)
    (x : float) (points : list JsPoint) : option (Outcome (list JsPoint)) :=
  match fuel with
  | O => None
  | S fuel' =>
      if (x <=? max)%float then
        let variables := additionalVariables ∪ {[ js "x" := x ]} in
        let r := safeEvaluate (expression func) variables in
        (* result !== null && isFinite(result) *)
        match (if isNull (result r) then Returns false
               else global_isFinite (result r)) with
        | Throws thrown => Some (Throws thrown)
        | Returns keep =>
            let points :=
              if keep then points ++ [mkJsPoint (JNumber x) (result r)]
              else points in
            evaluateFunction_loop fuel' func max step additionalVariables
                                  (x + step)%float points
        end
      else Some (Returns points)
  end.

Definition evaluateFunction (fuel : nat) (func : FunctionExpression)
    (xRange : Range) (additionalVariables : scope)
    : option (Outcome (list JsPoint)) :=
  evaluateFunction_loop fuel func (max xRange) (step xRange)
                        additionalVariables (min xRange) [].

Fixpoint evaluateParametricFunction_loop (fuel : nat)
    (xExpression yExpression parameter : jsstring)
    (max step : float) (additionalVariables : scope)
    (t : float) (points : list JsPoint) : option (Outcome (list JsPoint)) :=
  match fuel with
  | O => None
  | S fuel' =>
      if (t <=? max)%float then
        let variables := additionalVariables ∪ {[ parameter := t ]} in
        let xResult := safeEvaluate xExpression variables in
        let yResult := safeEvaluate yExpression variables in
        (* both results !== null && isFinite(x result) && isFinite(y result) *)
        match (if isNull (result xResult) || isNull (result yResult)
               then Returns false
               else
                 global_isFinite (result xResult) ≫= fun finiteX : bool =>
                 if finiteX then global_isFinite (result yResult)
                 else Returns false) with
        | Throws thrown => Some (Throws thrown)
        | Returns keep =>
            let points :=
              if keep
              then points ++ [mkJsPoint (result xResult) (result yResult)]
              else points in
            evaluateParametricFunction_loop fuel' xExpression yExpression
                                            parameter max step
                                            additionalVariables
                                            (t + step)%float points
        end
      else Some (Returns points)
  end.

Definition evaluateParametricFunction (fuel : nat)
    (xExpression yExpression parameter : jsstring)
    (paramRange : Range) (additionalVariables : scope)
    : option (Outcome (list JsPoint)) :=
  evaluateParametricFunction_loop fuel xExpression yExpression parameter
    (max paramRange) (step paramRange) additionalVariables (min paramRange) [].

(** [Math.cos] and [Math.sin]. *)
Variable Math_cos Math_sin : float -> float.

Fixpoint evaluatePolarFunction_loop (fuel : nat) (rExpression : jsstring)
    (max step : float) (additionalVariables : scope)
    (theta : float) (points : list JsPoint) : option (Outcome (list JsPoint)) :=
  match fuel with
  | O => None
  | S fuel' =>
      if (theta <=? max)%float then
        let variables :=
          additionalVariables ∪ ({[ js "theta" := theta ]} ∪ {[ js "t" := theta ]}) in
        let r := result (safeEvaluate rExpression variables) in
        match (if isNull r then Returns points
               else
                 global_isFinite r ≫= fun finite : bool =>
                 if finite then
                   rx ← asOperand r;
                   let x := (rx * Math_cos theta)%float in
                   ry ← asOperand r;
                   let y := (ry * Math_sin theta)%float in
                   Returns (if isFinite x && isFinite y
                            then points ++ [mkJsPoint (JNumber x) (JNumber y)]
                            else points)
                 else Returns points) with
        | Throws thrown => Some (Throws thrown)
        | Returns points =>
            evaluatePolarFunction_loop fuel' rExpression max step
                                       additionalVariables
                                       (theta + step)%float points
        end
      else Some (Returns points)
  end.

Definition evaluatePolarFunction (fuel : nat) (rExpression : jsstring)
    (thetaRange : Range) (additionalVariables : scope)
    : option (Outcome (list JsPoint)) :=
  evaluatePolarFunction_loop fuel rExpression (max thetaRange) (step thetaRange)
                             additionalVariables (min thetaRange) [].

(** *** numericalIntegral *)

(** One of the two summation loops,
    [for (let i = start; i < n; i += 2) sum += weight * f(a + i * h)],
    leaving with [null] at the first evaluation whose result is [null].
    The counter is a number, and the loop need not end (an infinite [n], or
    a counter too large for [i + 2] to move it): [fuel] bounds the
    iterations. *)
Fixpoint integralLoop (fuel : nat) (expression : jsstring) (variables : scope)
    (a h weight n : float) (i : float) (sum : JsValue)
    : option (Outcome (option JsValue)) :=
  match fuel with
  | O => None
  | S fuel' =>
      if (i <? n)%float then
        let x := (a + i * h)%float in
        let fx := safeEvaluate expression (<[ js "x" := x ]> variables) in
        if isNull (result fx) then Some (Returns None)
        else
          match (term ← asOperand (result fx);
                 plus sum (JNumber (weight * term))) with
          | Throws thrown => Some (Throws thrown)
          | Returns sum =>
              integralLoop fuel' expression variables a h weight n
                           (i + 2)%float sum
          end
      else Some (Returns (Some sum))
  end.

(** Find integral of a function using Simpson's rule ([n] is 1000 by
    default). *)
Definition numericalIntegral (fuel : nat) (expression : jsstring)
    (a b n : float) (additionalVariables : scope)
    : option (Outcome (option float)) :=
  (* Ensure even number of intervals *)
  let n := if negb (remainder n 2 =? 0)%float then (n + 1)%float else n in
  let h := ((b - a) / n)%float in
  let sum := JNumber 0 in
  let variables := additionalVariables in
  (* Evaluate at endpoints *)
  let fa := safeEvaluate expression (<[ js "x" := a ]> variables) in
  let fb := safeEvaluate expression (<[ js "x" := b ]> variables) in
  if isNull (result fa) || isNull (result fb) then Some (Returns None)
  else
    match (ends ← plus (result fa) (result fb); plus sum ends) with
    | Throws thrown => Some (Throws thrown)
    | Returns sum =>
        (* Evaluate at odd points *)
        match integralLoop fuel expression variables a h 4 n 1 sum with
        | None => None
        | Some (Throws thrown) => Some (Throws thrown)
        | Some (Returns None) => Some (Returns None)
        | Some (Returns (Some sum)) =>
            (* Evaluate at even points *)
            match integralLoop fuel expression variables a h 2 n 2 sum with
            | None => None
            | Some (Throws thrown) => Some (Throws thrown)
            | Some (Returns None) => Some (Returns None)
            | Some (Returns (Some sum)) =>
                Some (total ← asOperand sum;
                      Returns (Some ((h / 3) * total)%float))
            end
        end
    end.

(** *** numericalDerivative and findRoots *)

(** Find derivative of a function at a point using numerical
    differentiation ([h] is 1e-8 by default). *)
Definition numericalDerivative (expression : jsstring) (x h : float)
    (additionalVariables : scope) : Outcome (option float) :=
  let variables := additionalVariables in
  let f1 := safeEvaluate expression (<[ js "x" := (x + h)%float ]> variables) in
  let f2 := safeEvaluate expression (<[ js "x" := (x - h)%float ]> variables) in
  if negb (isNull (result f1)) && negb (isNull (result f2))
  then
    difference ← minus (result f1) (result f2);
    numerator ← withNumber difference;
    Returns (Some (numerator / (2 * h))%float)
  else Returns None.

(** The loop of [findRoots], with the number of iterations left. *)
Fixpoint findRoots_loop (iterations : nat) (expression : jsstring)
    (tolerance : float) (additionalVariables : scope) (x : float)
    : Outcome (option float) :=
  match iterations with
  | O => Returns None
  | S iterations' =>
      let fx := safeEvaluate expression (<[ js "x" := x ]> additionalVariables) in
      fpx ← numericalDerivative expression x 1e-8 additionalVariables;
      match fpx with
      | None => Returns None
      | Some d =>
          if isNull (result fx) || (Math_abs d <? tolerance)%float
          then Returns None
          else
            v ← asOperand (result fx);
            let newX := (x - v / d)%float in
            if (Math_abs (newX - x) <? tolerance)%float then Returns (Some newX)
            else findRoots_loop iterations' expression tolerance
                                additionalVariables newX
      end
  end.

(** Find roots of a function using the Newton-Raphson method; the number
    of iterations is an integer (100 by default, with the tolerance 1e-10). *)
Definition findRoots (expression : jsstring) (initialGuess : float)
    (maxIterations : Z) (tolerance : float) (additionalVariables : scope)
    : Outcome (option float) :=
  findRoots_loop (Z.to_nat maxIterations) expression tolerance
                 additionalVariables initialGuess.

End Engine.

(** Clamp a number between min and max values. *)
Definition clamp (value min max : float) : float :=
  Math_min (Math_max value min) max.

End MathUtils.

(* --------------------------------------------------------------------- *)
(** ** src/utils/mathUtils/functionTypeDetector.ts                        *)
(* --------------------------------------------------------------------- *)

Module FunctionTypeDetector.

Inductive FunctionType : Type :=
| linear | quadratic | polynomial | trigonometric | logarithmic | exponential
| parametric | polar | implicit | piecewise | recursive | complex.

(** The number of leading code units in a class: what a greedy [\d+] or
    [\s*] consumes when the next token of the pattern is outside the class. *)
Fixpoint countWhile (p : N -> bool) (s : jsstring) : nat :=
  match s with
  | c :: rest => if p c then S (countWhile p rest) else 0
  | [] => 0
  end.

(** [str.match(/re/g)]: the matched substrings, left to right. *)
Fixpoint matchAll_from (matcher : option N -> jsstring -> option nat)
    (prev : option N) (skip : nat) (s : jsstring) : list jsstring :=
  match s with
  | [] => []
  | c :: rest =>
      match skip with
      | S k => matchAll_from matcher (Some c) k rest
      | O =>
          match matcher prev s with
          | Some n => take n s :: matchAll_from matcher (Some c) (pred n) rest
          | None => matchAll_from matcher (Some c) 0 rest
          end
      end
  end.

Definition matchAll (matcher : option N -> jsstring -> option nat)
    (s : jsstring) : list jsstring :=
  matchAll_from matcher None 0 s.

(** [/re/.test(str)]: a match at some position. *)
Fixpoint test_from (matcher : option N -> jsstring -> option nat)
    (prev : option N) (s : jsstring) : bool :=
  match matcher prev s with Some _ => true | None => false end
  || match s with
     | [] => false
     | c :: rest => test_from matcher (Some c) rest
     end.

Definition test (matcher : option N -> jsstring -> option nat)
    (s : jsstring) : bool :=
  test_from matcher None s.

(** [\s*\^\s*] at the head of [s], then [tail] on what follows; the length
    of the whole match. *)
Definition afterCaret (tail : jsstring -> option nat) (s : jsstring)
    : option nat :=
  let w1 := countWhile isWhiteSpace s in
  match drop w1 s with
  | c :: r =>
      if (c =? 94)%N
      then
        let w2 := countWhile isWhiteSpace r in
        (fun n => w1 + 1 + w2 + n) <$> tail (drop w2 r)
      else None
  | [] => None
  end.

Definition letterX (s : jsstring) : option nat :=
  match s with
  | c :: _ => if (c =? 120)%N then Some 1 else None
  | [] => None
  end.

(** [/\b\d+\s*\^\s*x|\be\s*\^\s*x/]. *)
Definition matchExponential (prev : option N) (s : jsstring) : option nat :=
  if wordBoundary prev (head s)
  then
    let d := countWhile isDigit s in
    let viaDigits :=
      if 0 <? d
      then (fun n => d + n) <$> afterCaret letterX (drop d s)
      else None in
    match viaDigits with
    | Some n => Some n
    | None =>
        match s with
        | c :: r => if (c =? 101)%N then S <$> afterCaret letterX r else None
        | [] => None
        end
    end
  else None.

(** [/x\s*\^\s*(\d+)/]. *)
Definition matchPower (_ : option N) (s : jsstring) : option nat :=
  match s with
  | c :: r =>
      if (c =? 120)%N
      then
        S <$> afterCaret (fun t => let d := countWhile isDigit t in
                                   if 0 <? d then Some d else None) r
      else None
  | [] => None
  end.

(** [(\*x)+] counted: the number of repetitions at the head of [s]. *)
Fixpoint countStarX (s : jsstring) : nat :=
  match s with
  | c1 :: c2 :: rest =>
      if (c1 =? 42)%N && (c2 =? 120)%N then S (countStarX rest) else 0
  | _ => 0
  end.

(** [/x(\*x)+/]. *)
Definition matchProduct (_ : option N) (s : jsstring) : option nat :=
  match s with
  | c :: r =>
      if (c =? 120)%N
      then
        let k := countStarX r in
        if 0 <? k then Some (1 + 2 * k) else None
      else None
  | [] => None
  end.

(** [/\s/]. *)
Definition matchSpace (_ : option N) (s : jsstring) : option nat :=
  match s with
  | c :: _ => if isWhiteSpace c then Some 1 else None
  | [] => None
  end.

(** [match.match(/(\d+)/)]: the first run of digits, if there is one. *)
Fixpoint firstDigits (s : jsstring) : option jsstring :=
  match s with
  | [] => None
  | c :: rest =>
      if isDigit c then Some (take (countWhile isDigit s) s)
      else firstDigits rest
  end.

(** [parseInt(digits, 10)] on a string of decimal digits.  The value is kept
    exact; the double JavaScript rounds it to is 0, 1 or 2 exactly when the
    integer is, which is all the classifier looks at. *)
Definition parseInt (digits : jsstring) : N :=
  fold_left (fun acc c => (10 * acc + (c - 48))%N) digits 0%N.

Definition asciiToLower (c : N) : N :=
  if inRange 65 90 c then (c + 32)%N else c.

Section Runtime.

(** [String.prototype.toLowerCase] on a string with a code unit outside
    ASCII: the runtime's Unicode case mapping. *)
Variable unicodeToLowerCase : jsstring -> jsstring.

Definition toLowerCase (s : jsstring) : jsstring :=
  if forallb (fun c => (c <? 128)%N) s
  then map asciiToLower s
  else unicodeToLowerCase s.

(** Determine the degree of a polynomial expression. *)
Definition getPolynomialDegree (expression : jsstring) : N :=
  (* Remove spaces and convert to lowercase *)
  let clean := toLowerCase (replaceAll matchSpace [] expression) in
  let maxDegree := 0%N in
  (* Look for explicit power notation x^n *)
  let powerMatches := matchAll matchPower clean in
  let maxDegree :=
    fold_left (fun maxDegree m =>
                 match firstDigits m with
                 | Some digits => N.max maxDegree (parseInt digits)
                 | None => maxDegree
                 end) powerMatches maxDegree in
  (* Look for repeated multiplication x*x*x... *)
  let multiplicationMatches := matchAll matchProduct clean in
  let maxDegree :=
    fold_left (fun maxDegree m =>
                 let xCount := N.of_nat (length (filter (fun c => c = 120%N) m)) in
                 N.max maxDegree xCount) multiplicationMatches maxDegree in
  (* If x appears without explicit power, assume degree 1 *)
  if (maxDegree =? 0)%N && includes clean (js "x") then 1%N else maxDegree.

Definition isEmpty (s : jsstring) : bool :=
  match s with [] => true | _ => false end.

Definition includesAny (s : jsstring) (subs : list jsstring) : bool :=
  existsb (fun func => includes s func) subs.

Definition detectFunctionType (expression : jsstring) : FunctionType :=
  if isEmpty expression || isEmpty (trim expression) then polynomial else
  (* Clean the expression for analysis *)
  let cleanExpression := trim (toLowerCase expression) in
  (* Check for trigonometric functions *)
  let trigFunctions :=
    [js "sin"; js "cos"; js "tan"; js "sec"; js "csc"; js "cot";
     js "asin"; js "acos"; js "atan"] in
  if includesAny cleanExpression trigFunctions then trigonometric else
  (* Check for logarithmic functions *)
  let logFunctions := [js "log"; js "ln"; js "log10"; js "log2"] in
  if includesAny cleanExpression logFunctions then logarithmic else
  (* Check for exponential functions *)
  let expFunctions := [js "exp"; js "e^"] in
  if includesAny cleanExpression expFunctions
     || test matchExponential cleanExpression then exponential else
  (* Check for parametric functions *)
  if includes cleanExpression (js "t")
     && (includes cleanExpression (js "x(t)") || includes cleanExpression (js "y(t)")
         || includes cleanExpression (js "x=") || includes cleanExpression (js "y="))
  then parametric else
  (* Check for polar functions (uses theta or r) *)
  if includes cleanExpression (js "theta") || includes cleanExpression [952%N]
     || (includes cleanExpression (js "r") && negb (includes cleanExpression (js "sqrt")))
  then polar else
  (* Check for implicit functions *)
  if includes cleanExpression (js "x") && includes cleanExpression (js "y")
     && negb (startsWith cleanExpression (js "y="))
     && negb (startsWith cleanExpression (js "f(x)="))
  then implicit else
  (* Check for piecewise functions *)
  if includes cleanExpression (js "{") || includes cleanExpression (js "if")
     || includes cleanExpression (js "?") || includes cleanExpression (js ":")
  then piecewise else
  (* Analyze polynomial degree *)
  let degree := getPolynomialDegree cleanExpression in
  if (degree =? 1)%N then linear
  else if (degree =? 2)%N then quadratic
  else if (0 <? degree)%N then polynomial
  else polynomial.

End Runtime.

(** Get examples for each function type. *)
Definition getFunctionTypeExamples (type : FunctionType) : list jsstring :=
  match type with
  | linear => [js "2*x + 3"; js "x - 5"; js "0.5*x"]
  | quadratic => [js "x^2 + 2*x + 1"; js "x^2 - 4"; js "2*x^2 + 3*x - 1"]
  | polynomial => [js "x^3 - 2*x^2 + x - 1"; js "x^4 + x^2"; js "2*x^5 - 3*x^3 + x"]
  | trigonometric => [js "sin(x)"; js "cos(2*x) + sin(x)"; js "tan(x/2)"]
  | logarithmic => [js "log(x)"; js "ln(x) + 2"; js "log10(x^2)"]
  | exponential => [js "exp(x)"; js "2^x"; js "e^(-x^2)"]
  | parametric => [js "x(t) = cos(t), y(t) = sin(t)"; js "x = t^2, y = t^3"]
  | polar => [js "r = 1 + cos(theta)"; js "r = sin(3*theta)"]
  | implicit => [js "x^2 + y^2 = 25"; js "x^2 - y^2 = 1"]
  | piecewise => [js "{x < 0: -x, x^2}"; js "if(x > 0, x^2, -x)"]
  | recursive => [js "f(n) = f(n-1) + f(n-2)"]
  | complex => [js "z^2 + c"; js "sin(z)"]
  end.

End FunctionTypeDetector.

(* --------------------------------------------------------------------- *)
(** ** The statistics utilities (descriptive statistics and regression)   *)
(* --------------------------------------------------------------------- *)

Module Statistics.

(** [DataPoint]: the coordinates; its label, color and size are not read by
    the regressions. *)
Record DataPoint : Type := mkData { x : float; y : float }.

Inductive RegressionType : Type :=
| linear | polynomial | exponential | logarithmic.

Record RegressionResult : Type := mkRegression {
  type : RegressionType;
  equation : jsstring;
  rSquared : float;
  coefficients : list float;
  residuals : list float
}.

(** The fitted line [{ m, b }] of simple-statistics. *)
Record Line : Type := mkLine { m : float; b : float }.

(** The seven power sums the quadratic fit accumulates in one pass. *)
Record Sums : Type := mkSums {
  sumX : float; sumX2 : float; sumX3 : float; sumX4 : float;
  sumY : float; sumXY : float; sumX2Y : float
}.

Definition addPoint (s : Sums) (point : DataPoint) : Sums :=
  let x := x point in
  let y := y point in
  let x2 := (x * x)%float in
  let x3 := (x2 * x)%float in
  let x4 := (x2 * x2)%float in
  {| sumX := (sumX s + x)%float;
     sumX2 := (sumX2 s + x2)%float;
     sumX3 := (sumX3 s + x3)%float;
     sumX4 := (sumX4 s + x4)%float;
     sumY := (sumY s + y)%float;
     sumXY := (sumXY s + x * y)%float;
     sumX2Y := (sumX2Y s + x2 * y)%float |}.

Definition noSums : Sums := mkSums 0 0 0 0 0 0 0.

(** The determinant of the normal equations, from the number of points and
    the power sums of their abscissas. *)
Definition determinant (n : float) (s : Sums) : float :=
  (n * (sumX2 s * sumX4 s - sumX3 s * sumX3 s)
   - sumX s * (sumX s * sumX4 s - sumX2 s * sumX3 s)
   + sumX2 s * (sumX s * sumX3 s - sumX2 s * sumX2 s))%float.

Definition singularMatrix : Thrown :=
  ThrownError (js "Cannot solve quadratic regression - singular matrix").

Section Library.

(** [ss.linearRegression] and [ss.mean] of simple-statistics ([ss.mean] is
    only called on a list that is not empty), [Math.pow],
    [Number.prototype.toFixed] and the conversion of a number inside a
    template literal. *)
Variable ss_linearRegression : list (float * float) -> Line.
Variable ss_mean : list float -> float.
Variable Math_pow : float -> float -> float.
Variable toFixed : float -> nat -> jsstring.
Variable numberToString : float -> jsstring.

(** The two sums of squares of the R-squared computation, for a model
    [predict]: total first, residual second. *)
Definition sumsOfSquares (predict : DataPoint -> float) (meanY : float)
    (data : list DataPoint) : float * float :=
  fold_left (fun '(totalSumSquares, residualSumSquares) point =>
               let predicted := predict point in
               ((totalSumSquares + Math_pow (y point - meanY) 2)%float,
                (residualSumSquares + Math_pow (y point - predicted) 2)%float))
            data (0%float, 0%float).

(** Perform linear regression on data points. *)
Definition linearRegression (data : list DataPoint) : Outcome RegressionResult :=
  if length data <? 2
  then Throws (ThrownError (js "Need at least 2 data points for regression"))
  else
    let points := map (fun point => (x point, y point)) data in
    let regression := ss_linearRegression points in
    let predict point := (m regression * x point + b regression)%float in
    (* Calculate R-squared manually *)
    let meanY := ss_mean (map y data) in
    let '(totalSumSquares, residualSumSquares) :=
      sumsOfSquares predict meanY data in
    let rSquared := (1 - residualSumSquares / totalSumSquares)%float in
    (* Calculate residuals *)
    let residuals := map (fun point => (y point - predict point)%float) data in
    let equation :=
      js "y = " ++ toFixed (m regression) 4 ++ js "x + "
         ++ toFixed (b regression) 4 in
    Returns {| type := linear;
               equation := equation;
               rSquared := rSquared;
               coefficients := [b regression; m regression];
               residuals := residuals |}.

(** Perform quadratic regression (y = ax^2 + bx + c). *)
Definition quadraticRegression (data : list DataPoint)
    : Outcome RegressionResult :=
  if length data <? 3
  then Throws (ThrownError (js "Need at least 3 data points for quadratic regression"))
  else
    let n := ofNat (length data) in
    (* Set up normal equations for quadratic regression *)
    let s := fold_left addPoint data noSums in
    (* Solve the system of equations using Cramer's rule *)
    let det := determinant n s in
    if (Math_abs det <? 1e-10)%float
    then Throws singularMatrix
    else
      let c :=
        ((sumY s * (sumX2 s * sumX4 s - sumX3 s * sumX3 s)
          - sumXY s * (sumX s * sumX4 s - sumX2 s * sumX3 s)
          + sumX2Y s * (sumX s * sumX3 s - sumX2 s * sumX2 s)) / det)%float in
      let b :=
        ((n * (sumXY s * sumX4 s - sumX2Y s * sumX3 s)
          - sumY s * (sumX s * sumX4 s - sumX2 s * sumX3 s)
          + sumX2Y s * (sumX s * sumX2 s - n * sumX3 s)) / det)%float in
      let a :=
        ((n * (sumX2 s * sumX2Y s - sumX3 s * sumXY s)
          - sumX s * (sumX s * sumX2Y s - sumX2 s * sumXY s)
          + sumY s * (sumX s * sumX3 s - sumX2 s * sumX2 s)) / det)%float in
      let predict point := (a * x point * x point + b * x point + c)%float in
      (* Calculate R-squared *)
      let meanY := ss_mean (map y data) in
      let '(totalSumSquares, residualSumSquares) :=
        sumsOfSquares predict meanY data in
      let rSquared := (1 - residualSumSquares / totalSumSquares)%float in
      (* Calculate residuals *)
      let residuals := map (fun point => (y point - predict point)%float) data in
      let equation :=
        js "y = " ++ toFixed a 4 ++ [120%N; 194%N; 178%N] ++ js " + "
           ++ toFixed b 4 ++ js "x + " ++ toFixed c 4 in
      Returns {| type := polynomial;
                 equation := equation;
                 rSquared := rSquared;
                 coefficients := [c; b; a];
                 residuals := residuals |}.

(** Perform polynomial regression. *)
Definition polynomialRegression (data : list DataPoint) (degree : float)
    : Outcome RegressionResult :=
  if (ofNat (length data) <? degree + 1)%float
  then Throws (ThrownError (js "Need at least " ++ numberToString (degree + 1)%float
                              ++ js " data points for degree "
                              ++ numberToString degree ++ js " polynomial"))
  else
    (* Simple implementation for quadratic regression (degree 2) *)
    if (degree =? 2)%float
    then quadraticRegression data
    else
      (* For higher degrees, fall back to linear regression *)
      linearRegression data.

(** [Math.log] and [Math.exp]. *)
Variable Math_log Math_exp : float -> float.

(** Perform exponential regression (y = a * e^(b*x)). *)
Definition exponentialRegression (data : list DataPoint) : Outcome RegressionResult :=
  (* Filter out non-positive y values *)
  let validData := List.filter (fun point => gtb (y point) 0) data in
  if length validData <? 2
  then Throws (ThrownError (js "Need at least 2 data points with positive y values for exponential regression"))
  else
    (* Transform to linear: ln(y) = ln(a) + b*x *)
    let transformedPoints :=
      map (fun point => (x point, Math_log (y point))) validData in
    let linearReg := ss_linearRegression transformedPoints in
    let a := Math_exp (b linearReg) in
    let b := m linearReg in
    let predict point := (a * Math_exp (b * x point))%float in
    (* Calculate R-squared for original data *)
    let meanY := ss_mean (map y validData) in
    let '(totalSumSquares, residualSumSquares) :=
      sumsOfSquares predict meanY validData in
    let rSquared := (1 - residualSumSquares / totalSumSquares)%float in
    (* Calculate residuals *)
    let residuals :=
      map (fun point =>
             if (y point <=? 0)%float then 0%float (* Cannot predict for non-positive values *)
             else (y point - predict point)%float) data in
    let equation :=
      js "y = " ++ toFixed a 4 ++ js " * e^(" ++ toFixed b 4 ++ js "x)" in
    Returns {| type := exponential;
               equation := equation;
               rSquared := rSquared;
               coefficients := [a; b];
               residuals := residuals |}.

(** Perform logarithmic regression (y = a + b * ln(x)). *)
Definition logarithmicRegression (data : list DataPoint) : Outcome RegressionResult :=
  (* Filter out non-positive x values *)
  let validData := List.filter (fun point => gtb (x point) 0) data in
  if length validData <? 2
  then Throws (ThrownError (js "Need at least 2 data points with positive x values for logarithmic regression"))
  else
    (* Transform: y = a + b * ln(x) *)
    let transformedPoints :=
      map (fun point => (Math_log (x point), y point)) validData in
    let linearReg := ss_linearRegression transformedPoints in
    let a := b linearReg in (* intercept *)
    let b := m linearReg in (* slope *)
    let predict point := (a + b * Math_log (x point))%float in
    (* Calculate R-squared *)
    let meanY := ss_mean (map y validData) in
    let '(totalSumSquares, residualSumSquares) :=
      sumsOfSquares predict meanY validData in
    let rSquared := (1 - residualSumSquares / totalSumSquares)%float in
    (* Calculate residuals *)
    let residuals :=
      map (fun point =>
             if (x point <=? 0)%float then 0%float (* Cannot predict for non-positive values *)
             else (y point - predict point)%float) data in
    let equation :=
      js "y = " ++ toFixed a 4 ++ js " + " ++ toFixed b 4 ++ js " * ln(x)" in
    Returns {| type := logarithmic;
               equation := equation;
               rSquared := rSquared;
               coefficients := [a; b];
               residuals := residuals |}.

End Library.

End Statistics.

(* --------------------------------------------------------------------- *)
(** ** src/utils/graphUtils/index.ts                                      *)
(* --------------------------------------------------------------------- *)

Module GraphUtils.

Definition distanceToLine (point lineStart lineEnd : Point2D) : float :=
  let A := (x lineEnd - x lineStart)%float in
  let B := (y lineEnd - y lineStart)%float in
  let C := (x lineStart - x point)%float in
  let D := (y lineStart - y point)%float in
  let dot := (A * C + B * D)%float in
  let lenSq := (A * A + B * B)%float in
  if (lenSq =? 0)%float then Math_sqrt (C * C + D * D)%float
  else
    let param := (- dot / lenSq)%float in
    let '(xx, yy) :=
      if (param <? 0)%float then (x lineStart, y lineStart)
      else if gtb param 1 then (x lineEnd, y lineEnd)
      else ((x lineStart + param * A)%float, (y lineStart + param * B)%float) in
    let dx := (x point - xx)%float in
    let dy := (y point - yy)%float in
    Math_sqrt (dx * dx + dy * dy)%float.

(** The search loop of [douglasPeucker]: over the indices [1 .. length - 2],
    the largest distance seen so far and the index where it was seen. *)
Definition furthest (points : list Point2D) (first last : Point2D)
    : float * nat :=
  fold_left (fun '(maxDistance, maxIndex) i =>
               match points !! i with
               | Some p =>
                   let distance := distanceToLine p first last in
                   if gtb distance maxDistance
                   then (distance, i)
                   else (maxDistance, maxIndex)
               | None => (maxDistance, maxIndex)
               end)
            (seq 1 (length points - 2)) (0%float, 0).

(** The recursion of [douglasPeucker] need not end; [fuel] bounds its depth
    and [None] says it ran out. *)
Fixpoint douglasPeucker (fuel : nat) (points : list Point2D) (tolerance : float)
    : option (list Point2D) :=
  match fuel with
  | O => None
  | S fuel' =>
      match points with
      | first :: _ :: _ :: _ =>
          (* Find the point with maximum distance from the line between first and last *)
          let last := default first (last points) in
          let '(maxDistance, maxIndex) := furthest points first last in
          (* If max distance is greater than tolerance, recursively simplify *)
          if gtb maxDistance tolerance
          then
            match douglasPeucker fuel' (take (maxIndex + 1) points) tolerance with
            | None => None
            | Some left_ =>
                match douglasPeucker fuel' (drop maxIndex points) tolerance with
                | None => None
                | Some right_ =>
                    (* Combine results, removing duplicate point *)
                    Some (take (length left_ - 1) left_ ++ right_)
                end
            end
          else Some [first; last]
      | _ => Some points
      end
  end.

(** Reduce points using Douglas-Peucker algorithm for performance. *)
Definition simplifyPoints (fuel : nat) (points : list Point2D) (tolerance : float)
    : option (list Point2D) :=
  if length points <=? 2 then Some points
  else douglasPeucker fuel points tolerance.

(** *** The viewport and the drawing of curves *)

Record GraphViewport : Type := mkViewport {
  xMin : float; xMax : float; yMin : float; yMax : float;
  xScale : float; yScale : float; zoom : float;
  centerX : float; centerY : float
}.

(** Convert screen coordinates to graph coordinates. *)
Definition screenToGraph (screenX screenY : float) (viewport : GraphViewport)
    (canvasWidth canvasHeight : float) : Point2D :=
  let graphX :=
    (xMin viewport + (screenX / canvasWidth) * (xMax viewport - xMin viewport))%float in
  let graphY :=
    (yMax viewport - (screenY / canvasHeight) * (yMax viewport - yMin viewport))%float in
  {| x := graphX; y := graphY |}.

(** Convert graph coordinates to screen coordinates. *)
Definition graphToScreen (graphX graphY : float) (viewport : GraphViewport)
    (canvasWidth canvasHeight : float) : Point2D :=
  let screenX :=
    (((graphX - xMin viewport) / (xMax viewport - xMin viewport)) * canvasWidth)%float in
  let screenY :=
    (((yMax viewport - graphY) / (yMax viewport - yMin viewport)) * canvasHeight)%float in
  {| x := screenX; y := screenY |}.

(** The operations on the 2D context that drawing a curve performs, in the
    order they are performed. *)
Inductive CanvasCommand : Type :=
| Save
| Restore
| SetStrokeStyle (color : jsstring)
| SetLineWidth (width : float)
| SetGlobalAlpha (alpha : float)
| SetLineDash (segments : list float)
| BeginPath
| MoveTo (x y : float)
| LineTo (x y : float)
| Stroke.

Record CurveStyle : Type := mkStyle {
  color : jsstring;
  strokeWidth : float;
  dashArray : option jsstring;
  opacity : float
}.

(** The loop of [drawFunctionCurve] over the points still to draw, with its
    two variables. *)
Fixpoint drawFunctionCurve_loop (points : list Point2D) (viewport : GraphViewport)
    (canvasWidth canvasHeight : float)
    (firstPoint : bool) (lastScreenPoint : option Point2D)
    : list CanvasCommand :=
  match points with
  | [] => []
  | point :: rest =>
      let screenPoint :=
        graphToScreen (x point) (y point) viewport canvasWidth canvasHeight in
      (* Check for discontinuities (large jumps in y-value) *)
      let firstPoint :=
        match lastScreenPoint with
        | Some lastPoint =>
            if gtb (Math_abs (y screenPoint - y lastPoint)) (canvasHeight / 2)
            then true else firstPoint
        | None => firstPoint
        end in
      (if firstPoint
       then MoveTo (x screenPoint) (y screenPoint)
       else LineTo (x screenPoint) (y screenPoint))
      :: drawFunctionCurve_loop rest viewport canvasWidth canvasHeight
                                false (Some screenPoint)
  end.

Section Canvas.

(** The conversion [Number(text)] of a string to a number. *)
Variable toNumber : jsstring -> float.

(** Draw function curve. *)
Definition drawFunctionCurve (points : list Point2D) (viewport : GraphViewport)
    (canvasWidth canvasHeight : float) (style : CurveStyle)
    : list CanvasCommand :=
  match points with
  | [] => []
  | _ :: _ =>
      [Save;
       SetStrokeStyle (color style);
       SetLineWidth (strokeWidth style);
       SetGlobalAlpha (opacity style)]
      ++ match dashArray style with
         | Some (c :: dashes) =>
             [SetLineDash (map toNumber (split 44 (c :: dashes)))]
         | _ => []
         end
      ++ [BeginPath]
      ++ drawFunctionCurve_loop points viewport canvasWidth canvasHeight true None
      ++ [Stroke; Restore]
  end.

End Canvas.

(** *** Bounds and smoothing *)

Record Bounds : Type := mkBounds {
  minX : float; maxX : float; minY : float; maxY : float
}.

(** Calculate bounds of a set of points. *)
Definition calculateBounds (points : list Point2D) : Bounds :=
  match points with
  | [] => {| minX := -10; maxX := 10; minY := -10; maxY := 10 |}
  | first :: _ =>
      fold_left (fun bounds point =>
                   {| minX := Math_min (minX bounds) (x point);
                      maxX := Math_max (maxX bounds) (x point);
                      minY := Math_min (minY bounds) (y point);
                      maxY := Math_max (maxY bounds) (y point) |})
                points
                {| minX := x first; maxX := x first;
                   minY := y first; maxY := y first |}
  end.

(** Smooth curve using cubic interpolation (the smoothing factor is 0.3 by
    default).  The index runs over the input; an interior index reads its
    two neighbours in the input. *)
Definition smoothCurve (points : list Point2D) (smoothing : float)
    : list Point2D :=
  if length points <? 3 then points
  else
    omap (fun i =>
            if (i =? 0) || (i =? length points - 1)
            then points !! i
            else
              match points !! (i - 1), points !! i, points !! (i + 1) with
              | Some prev, Some curr, Some next =>
                  Some {| x := (x curr + smoothing * (x prev + x next - 2 * x curr))%float;
                          y := (y curr + smoothing * (y prev + y next - 2 * y curr))%float |}
              | _, _, _ => None
              end)
         (seq 0 (length points)).

End GraphUtils.

(* --------------------------------------------------------------------- *)
(** ** The statistics utilities that read the optional fields of a point  *)
(* --------------------------------------------------------------------- *)

Module DataTools.

(** [DataPoint] with its optional label, color and size. *)
Record DataPoint : Type := mkData {
  x : float; y : float;
  label : option jsstring; color : option jsstring; size : option float
}.

(** Smooth data using moving average.  The window size is an integer. *)
Definition smoothData (data : list DataPoint) (windowSize : Z) : list DataPoint :=
  if (windowSize <=? 1)%Z || (Z.of_nat (length data) <=? windowSize)%Z then data
  else
    let halfWindow := Z.to_nat (windowSize / 2) in
    omap (fun i =>
            match data !! i with
            | Some point =>
                let start := Nat.max 0 (i - halfWindow) in
                let end_ := Nat.min (length data - 1) (i + halfWindow) in
                let window := seq start (S end_ - start) in
                let sum :=
                  fold_left (fun sum j =>
                               match data !! j with
                               | Some other => (sum + y other)%float
                               | None => sum
                               end) window 0%float in
                let count := ofNat (length window) in
                Some {| x := x point;
                        y := (sum / count)%float;
                        label := label point;
                        color := color point;
                        size := size point |}
            | None => None
            end)
         (seq 0 (length data)).

Section Text.

(** The conversion of a number inside a template literal, and
    [parseFloat]. *)
Variable numberToString : float -> jsstring.
Variable parseFloat : jsstring -> float.

(** Export data to CSV format. *)
Definition exportToCSV (data : list DataPoint) : jsstring :=
  let header := js "x,y,label" ++ [10%N] in
  let rows :=
    join [10%N]
         (map (fun point =>
                 numberToString (x point) ++ js ","
                 ++ numberToString (y point) ++ js ","
                 ++ default [] (label point)) data) in
  header ++ rows.

(** Parse CSV data into DataPoint array. *)
Definition parseCSVData (csvText : jsstring) : list DataPoint :=
  let lines := split 10 (trim csvText) in
  omap (fun line =>
          let values := map trim (split 44 line) in
          match values with
          | first :: second :: rest =>
              let x := parseFloat first in
              let y := parseFloat second in
              if negb (PrimFloat.is_nan x) && negb (PrimFloat.is_nan y)
              then Some {| x := x;
                           y := y;
                           label := match rest with
                                    | (c :: text) :: _ => Some (c :: text)
                                    | _ => None
                                    end;
                           color := None;
                           size := None |}
              else None
          | _ => None
          end)
       (drop 1 lines) (* Skip header *).

End Text.

End DataTools.

(* --------------------------------------------------------------------- *)
(** ** The store: history, undo and redo, and the animation clock         *)
(* --------------------------------------------------------------------- *)

Module CalculatorStore.

Section Store.

(** The nine fields of the calculator state that a snapshot copies:
    functions, datasets, shapes, viewport, grid and axis settings,
    animation state, selected tool and settings. *)
Variable Model : Type.

(** The store: these fields, the errors, and the history with its index.
    A snapshot in the history holds the nine fields; its own errors and
    history are empty. *)
Record Store : Type := mkStore {
  model : Model;
  errors : list MathUtils.MathError;
  history : list Model;
  historyIndex : Z
}.

(** [array[index]] for an index that may be negative or too large. *)
Definition at_ (entries : list Model) (index : Z) : option Model :=
  if (index <? 0)%Z then None else entries !! Z.to_nat index.

(** [array.slice(0, stop)]: a negative [stop] counts from the end. *)
Definition sliceTo (entries : list Model) (stop : Z) : list Model :=
  if (stop <? 0)%Z
  then take (length entries - Z.to_nat (- stop)) entries
  else take (Z.to_nat stop) entries.

Definition saveToHistory (state : Store) : Store :=
  let currentState := model state in
  (* Limit history size *)
  let '(history1, historyIndex1) :=
    if 50 <=? length (history state)
    then (drop 1 (history state), historyIndex state)
    else (history state, (historyIndex state + 1)%Z) in
  let history2 := sliceTo history1 (historyIndex1 + 1) in
  {| model := model state;
     errors := errors state;
     history := history2 ++ [currentState];
     historyIndex := historyIndex1 |}.

(** [Object.assign(state, {...snapshot, history, historyIndex})]: the nine
    fields and the (empty) errors of the snapshot, when there is one. *)
Definition restore (state : Store) (index : Z) : Store :=
  match at_ (history state) index with
  | Some snapshot =>
      {| model := snapshot; errors := [];
         history := history state; historyIndex := index |}
  | None =>
      {| model := model state; errors := errors state;
         history := history state; historyIndex := index |}
  end.

Definition undo (state : Store) : Store :=
  if (0 <? historyIndex state)%Z
  then restore state (historyIndex state - 1)
  else state.

Definition redo (state : Store) : Store :=
  if (historyIndex state <? Z.of_nat (length (history state)) - 1)%Z
  then restore state (historyIndex state + 1)
  else state.

End Store.

Arguments mkStore {Model} model errors history historyIndex.
Arguments model {Model} s.
Arguments errors {Model} s.
Arguments history {Model} s.
Arguments historyIndex {Model} s.
Arguments at_ {Model} entries index.
Arguments sliceTo {Model} entries stop.
Arguments saveToHistory {Model} state.
Arguments restore {Model} state index.
Arguments undo {Model} state.
Arguments redo {Model} state.

Record AnimationState : Type := mkAnimation {
  isPlaying : bool;
  currentTime : float;
  duration : float;
  speed : float;
  loop : bool;
  timeVariable : jsstring
}.

Definition setAnimationTime (animationState : AnimationState) (time : float)
    : AnimationState :=
  {| isPlaying := isPlaying animationState;
     currentTime := Math_max 0 (Math_min time (duration animationState));
     duration := duration animationState;
     speed := speed animationState;
     loop := loop animationState;
     timeVariable := timeVariable animationState |}.

End CalculatorStore.

(* --------------------------------------------------------------------- *)
(** ** Vocabulary of the statements                                       *)
(* --------------------------------------------------------------------- *)

(** A raw result of the engine that is a finite real number. *)
Definition isFiniteNumber (w : MathUtils.JsValue) : bool :=
  match w with
  | MathUtils.JNumber v => isFinite v
  | _ => false
  end.

(** A raw result that is an object in which [im] is a key: what the [try]
    block of [safeEvaluate] takes for a complex number. *)
Definition hasImaginaryPart (w : MathUtils.JsValue) : bool :=
  match w with
  | MathUtils.JObject properties => MathUtils.hasProperty (js "im") properties
  | _ => false
  end.

(** An engine whose objects with the key [im] hold a number under [re], as
    its complex numbers do. *)
Definition complexNumbersOnly
    (mathjs : jsstring -> MathUtils.scope -> Outcome MathUtils.JsValue) : Prop :=
  forall expression variables properties,
    mathjs expression variables = Returns (MathUtils.JObject properties) ->
    MathUtils.hasProperty (js "im") properties = true ->
    exists re, MathUtils.property (js "re") properties = MathUtils.JNumber re.

(** An evaluation that carries a value and no error. *)
Definition value (v : float) : MathUtils.Evaluation :=
  {| MathUtils.result := MathUtils.JNumber v; MathUtils.error := None |}.

(** "A result is valid iff it is a value and the real number is finite". *)
Definition valid (r : MathUtils.Evaluation) : bool :=
  match MathUtils.result r with
  | MathUtils.JNumber v => isFinite v
  | _ => false
  end.

(** A result that is a number or [null], as the declared type of
    [safeEvaluate] promises. *)
Definition numberOrNull (w : MathUtils.JsValue) : Prop :=
  w = MathUtils.JNull \/ exists v, w = MathUtils.JNumber v.

(** The values a loop [for (let v = min; v <= max; v += step)] visits, when
    it ends within [fuel] iterations. *)
Fixpoint domainWalk (fuel : nat) (v max step : float) : option (list float) :=
  match fuel with
  | O => None
  | S fuel' =>
      if (v <=? max)%float
      then cons v <$> domainWalk fuel' (v + step)%float max step
      else Some []
  end.

Definition walk (fuel : nat) (range : MathUtils.Range) : option (list float) :=
  domainWalk fuel (MathUtils.min range) (MathUtils.max range) (MathUtils.step range).

(** A matcher that only looks at the code unit at the position, and matches
    it when it is in the class. *)
Definition headOnly (matcher : option N -> jsstring -> option nat)
    (cls : N -> bool) : Prop :=
  forall prev s,
    matcher prev s
    = match s with
      | c :: _ => if cls c then Some 1 else None
      | [] => None
      end.

(** A string that does not start with white space. *)
Definition trimmedStart (s : jsstring) : Prop :=
  match s with
  | [] => True
  | c :: _ => isWhiteSpace c = false
  end.

(** A string none of the three denylist passes changes: it holds no
    denylisted keyword between word boundaries, no two dots in a row and no
    template interpolation. *)
Definition denylistFree (s : jsstring) : Prop :=
  replaceAll MathUtils.matchKeyword [] s = s
  /\ replaceAll (matchLiteral (js "..")) [] s = s
  /\ replaceAll MathUtils.matchTemplate [] s = s.

(** The number that a result holds, 0 standing for a result that is not a
    number. *)
Definition numberOf (w : MathUtils.JsValue) : float :=
  match w with
  | MathUtils.JNumber v => v
  | _ => 0%float
  end.

(** The values of the counter of a loop [for (let i = start; i < n; i += 2)],
    when it ends within [fuel] iterations. *)
Fixpoint countByTwo (fuel : nat) (i n : float) : option (list float) :=
  match fuel with
  | O => None
  | S fuel' =>
      if (i <? n)%float
      then cons i <$> countByTwo fuel' (i + 2)%float n
      else Some []
  end.

(** What one step of each sampler contributes, in the words of the
    specification: the point of a valid evaluation, and nothing otherwise. *)
Section Samples.

Import MathUtils.

Variable mathjs : jsstring -> scope -> Outcome JsValue.
Variable inOperatorMessage : jsstring.
Variable Math_cos Math_sin : float -> float.

(** Cartesian: evaluate with scope [{x, ...extraVars}]; [(x, y)] if valid. *)
Definition cartesianSample (func : FunctionExpression) (extra : scope)
    (x : float) : option JsPoint :=
  let r := safeEvaluate mathjs inOperatorMessage (expression func)
                        (extra ∪ {[ js "x" := x ]}) in
  if valid r then Some (mkJsPoint (JNumber x) (result r)) else None.

(** Parametric: evaluate both expressions with scope [{param: t, ...extraVars}];
    [(x, y)] only if both are valid. *)
Definition parametricSample (xExpression yExpression parameter : jsstring)
    (extra : scope) (t : float) : option JsPoint :=
  let xr := safeEvaluate mathjs inOperatorMessage xExpression
                         (extra ∪ {[ parameter := t ]}) in
  let yr := safeEvaluate mathjs inOperatorMessage yExpression
                         (extra ∪ {[ parameter := t ]}) in
  if valid xr && valid yr
  then Some (mkJsPoint (result xr) (result yr))
  else None.

(** Polar: evaluate [r(theta)]; if valid, convert to Cartesian coordinates
    and keep the point only if both are finite. *)
Definition polarSample (rExpression : jsstring) (extra : scope)
    (theta : float) : option JsPoint :=
  let r := safeEvaluate mathjs inOperatorMessage rExpression
             (extra ∪ ({[ js "theta" := theta ]} ∪ {[ js "t" := theta ]})) in
  match result r with
  | JNumber v =>
      if isFinite v
      then
        let x := (v * Math_cos theta)%float in
        let y := (v * Math_sin theta)%float in
        if isFinite x && isFinite y
        then Some (mkJsPoint (JNumber x) (JNumber y)) else None
      else None
  | _ => None
  end.

End Samples.

(** The policy "skip invalid, keep walking" for a pass over [steps] whose
    step rule is [sample]: the pass returns; what it returns is the list of
    the points of the steps that have one, in the order of the walk, so a
    step without a point only leaves its own place empty; each point of the
    output is the point of one of the steps; and when no step has a point
    the output is the empty sequence. *)
Definition skipInvalidKeepWalking (sample : float -> option MathUtils.JsPoint)
    (steps : list float) (out : option (Outcome (list MathUtils.JsPoint)))
    : Prop :=
  exists points,
    out = Some (Returns points)
    /\ points = omap sample steps
    /\ (forall p, p ∈ points -> exists v, v ∈ steps /\ sample v = Some p)
    /\ (Forall (fun v => sample v = None) steps -> points = []).

(** ** Points and bounds *)

(** A point whose coordinates are numbers (not NaN). *)
Definition numeric (p : Point2D) : Prop :=
  PrimFloat.is_nan (x p) = false /\ PrimFloat.is_nan (y p) = false.

(** A point inside the bounds, borders included. *)
Definition within (b : GraphUtils.Bounds) (p : Point2D) : Prop :=
  (GraphUtils.minX b <=? x p)%float = true
  /\ (x p <=? GraphUtils.maxX b)%float = true
  /\ (GraphUtils.minY b <=? y p)%float = true
  /\ (y p <=? GraphUtils.maxY b)%float = true.

(** Bounds each of which is a coordinate of one of the points. *)
Definition attained (b : GraphUtils.Bounds) (points : list Point2D) : Prop :=
  GraphUtils.minX b ∈ map x points
  /\ GraphUtils.maxX b ∈ map x points
  /\ GraphUtils.minY b ∈ map y points
  /\ GraphUtils.maxY b ∈ map y points.

(** ** Data that survive the CSV format *)

(** A field that holds no comma and no line feed. *)
Definition plain (s : jsstring) : bool :=
  forallb (fun c => negb (c =? 44)%N && negb (c =? 10)%N) s.

(** A point the CSV format can carry: its coordinates are numbers whose
    text is plain and reads back as the same number, and its label, if it
    has one, is plain and has no white space at either end. *)
Definition portable (numberToString : float -> jsstring)
    (parseFloat : jsstring -> float) (point : DataTools.DataPoint) : Prop :=
  PrimFloat.is_nan (DataTools.x point) = false
  /\ PrimFloat.is_nan (DataTools.y point) = false
  /\ parseFloat (trim (numberToString (DataTools.x point))) = DataTools.x point
  /\ parseFloat (trim (numberToString (DataTools.y point))) = DataTools.y point
  /\ plain (numberToString (DataTools.x point)) = true
  /\ plain (numberToString (DataTools.y point)) = true
  /\ plain (default [] (DataTools.label point)) = true
  /\ trim (default [] (DataTools.label point)) = default [] (DataTools.label point).

(** What the CSV format keeps of a point: the coordinates and a label that
    is not empty. *)
Definition carried (point : DataTools.DataPoint) : DataTools.DataPoint :=
  {| DataTools.x := DataTools.x point;
     DataTools.y := DataTools.y point;
     DataTools.label := match DataTools.label point with
                        | Some (c :: text) => Some (c :: text)
                        | _ => None
                        end;
     DataTools.color := None;
     DataTools.size := None |}.

(** One row of the exported text. *)
Definition csvRow (numberToString : float -> jsstring)
    (point : DataTools.DataPoint) : jsstring :=
  numberToString (DataTools.x point) ++ js ","
  ++ numberToString (DataTools.y point) ++ js ","
  ++ default [] (DataTools.label point).

(** Stand-ins for the conversions between numbers and text, on the numbers
    1 and 2. *)
Definition showSmall (v : float) : jsstring :=
  if (v =? 1)%float then js "1" else if (v =? 2)%float then js "2" else js "NaN".

Definition parseSmall (s : jsstring) : float :=
  match s with
  | [49%N] => 1%float
  | [50%N] => 2%float
  | _ => PrimFloat.nan
  end.

(** ** The history of the store *)

(** A store whose history index names an entry of its history, or is -1
    when the history is empty, the history holding at most 50 entries. *)
Definition consistent {Model : Type} (state : CalculatorStore.Store Model)
    : Prop :=
  let entries := Z.of_nat (length (CalculatorStore.history state)) in
  (entries <= 50)%Z
  /\ ((entries = 0 /\ CalculatorStore.historyIndex state = -1)
      \/ (0 <= CalculatorStore.historyIndex state < entries))%Z.

(** ** Engines for the examples *)

(** An engine for the expression [x]: it answers the value of [x] in the
    scope, and throws when the scope has none. *)
Definition engineX (_ : jsstring) (variables : MathUtils.scope)
    : Outcome MathUtils.JsValue :=
  match variables !! js "x" with
  | Some v => Returns (MathUtils.JNumber v)
  | None => Throws (ThrownError (js "Undefined symbol x"))
  end.

(** An engine for the expression [1/x]: it answers the quotient, which is
    [Infinity] at [x = 0], and throws when the scope has no [x]. *)
Definition engineReciprocal (_ : jsstring) (variables : MathUtils.scope)
    : Outcome MathUtils.JsValue :=
  match variables !! js "x" with
  | Some v => Returns (MathUtils.JNumber (1 / v))
  | None => Throws (ThrownError (js "Undefined symbol x"))
  end.

(** An engine that throws an [Error] with the given message. *)
Definition engineThrow (msg : jsstring) (_ : jsstring) (_ : MathUtils.scope)
    : Outcome MathUtils.JsValue :=
  Throws (ThrownError msg).

(** An engine for the expression [i/x]: the complex infinity at [x = 0] (a
    complex number divided by zero), and the complex number [0 + (1/x) i]
    elsewhere. *)
Definition engineIOverX (_ : jsstring) (variables : MathUtils.scope)
    : Outcome MathUtils.JsValue :=
  match variables !! js "x" with
  | Some v =>
      if (v =? 0)%float
      then Returns (MathUtils.JComplex infinity infinity)
      else Returns (MathUtils.JComplex 0 (1 / v))
  | None => Throws (ThrownError (js "Undefined symbol x"))
  end.

(** Stand-in for the conversions of the run time: every string, function
    and object counts as NaN, and the messages are empty. *)
Definition notANumber : MathUtils.Conversions :=
  {| MathUtils.toNumericOther := fun _ => Returns (MathUtils.NNumber PrimFloat.nan);
     MathUtils.plusOther := fun _ _ => Returns (MathUtils.JNumber PrimFloat.nan);
     MathUtils.toNumberMessage := [];
     MathUtils.mixMessage := [] |}.

(** An engine that answers the same value whatever it is asked. *)
Definition engineConst (w : MathUtils.JsValue) (_ : jsstring)
    (_ : MathUtils.scope) : Outcome MathUtils.JsValue :=
  Returns w.

(** Stand-ins for the library functions the regressions call: the mean as
    sum over count, the square for [Math.pow(v, 2)], a constant line for
    [ss.linearRegression], and number formatting that prints nothing. *)
Definition meanOf (values : list float) : float :=
  (fold_left (fun acc v => acc + v) values 0 / ofNat (length values))%float.

Definition squareOf (v _ : float) : float := (v * v)%float.

Definition flatLine (_ : list (float * float)) : Statistics.Line :=
  Statistics.mkLine 0 0.

Definition noDigits (_ : float) (_ : nat) : jsstring := [].

Definition noText (_ : float) : jsstring := [].

(** ** The determinant of the normal equations, from the abscissas alone *)

Definition normalDeterminant (xs : list float) : float :=
  let n := ofNat (length xs) in
  let sx := fold_left (fun acc x => acc + x)%float xs 0%float in
  let sx2 := fold_left (fun acc x => acc + x * x)%float xs 0%float in
  let sx3 := fold_left (fun acc x => acc + x * x * x)%float xs 0%float in
  let sx4 := fold_left (fun acc x => acc + (x * x) * (x * x))%float xs 0%float in
  (n * (sx2 * sx4 - sx3 * sx3)
   - sx * (sx * sx4 - sx2 * sx3)
   + sx2 * (sx * sx3 - sx2 * sx2))%float.

(** The same determinant in exact arithmetic, for integer abscissas. *)
Definition exactDeterminant (xs : list Z) : Z :=
  let n := Z.of_nat (length xs) in
  let sx := fold_left (fun acc x => acc + x)%Z xs 0%Z in
  let sx2 := fold_left (fun acc x => acc + x * x)%Z xs 0%Z in
  let sx3 := fold_left (fun acc x => acc + x * x * x)%Z xs 0%Z in
  let sx4 := fold_left (fun acc x => acc + (x * x) * (x * x))%Z xs 0%Z in
  (n * (sx2 * sx4 - sx3 * sx3)
   - sx * (sx * sx4 - sx2 * sx3)
   + sx2 * (sx * sx3 - sx2 * sx2))%Z.

(** ** The invariant of the search loop of the simplifier *)

(** What the search loop holds: nothing exceeded zero, or the largest
    distance is that of an interior point, at the index kept. *)
Definition searched (points : list Point2D) (first last_ : Point2D)
    (state : float * nat) : Prop :=
  (state.1 = 0%float /\ state.2 = 0)
  \/ (1 <= state.2 < length points - 1
      /\ exists p, points !! state.2 = Some p
                   /\ state.1 = GraphUtils.distanceToLine p first last_).

(* ===================================================================== *)
(** * Part II: the theorems                                               *)
(* ===================================================================== *)

(** ** The safe evaluator *)

Section SafeEvaluate.

Import MathUtils.

Variable mathjs : jsstring -> scope -> Outcome JsValue.
Variable inOperatorMessage : jsstring.

Local Abbreviation safeEvaluate := (MathUtils.safeEvaluate mathjs inOperatorMessage).

Lemma safeEvaluate_unfold e s :
  safeEvaluate e s =
  match mathjs (sanitizeExpression e) s with
  | Throws thrown => catchBlock thrown
  | Returns JNull => catchBlock (ThrownError inOperatorMessage)
  | Returns (JObject properties) =>
      if hasProperty (js "im") properties
      then {| result := property (js "re") properties; error := None |}
      else computationError
  | Returns (JNumber v) => if isFinite v then value v else computationError
  | Returns _ => computationError
  end.
Proof.
  unfold MathUtils.safeEvaluate, tryBlock.
  destruct (mathjs (sanitizeExpression e) s) as [[| |b|v|z|t| |properties]|];
    try reflexivity.
  - destruct (isFinite v); reflexivity.
  - destruct (hasProperty (js "im") properties); reflexivity.
Qed.

(** When the engine's answer is not an object in which [im] is a key,
    [safeEvaluate] returns either a finite number, the one the engine
    answered, with no error, or [null] with an error, never both and never
    neither.  An answer that is not a finite number (and not [null]) gives
    the [computation] error with the division-by-zero and
    domain-restriction hints; a throw of the engine, and the throw of the
    test for a complex number on [null], give the [syntax] error with the
    message of what was thrown (["Unknown error"] when it is not an
    [Error]) and the suggestions about syntax, function names and
    parentheses. *)
Theorem safeEvaluate_value_or_error e s :
  let raw := mathjs (sanitizeExpression e) s in
  let r := safeEvaluate e s in
  (forall w, raw = Returns w -> hasImaginaryPart w = false) ->
  ((exists v, r = value v /\ isFinite v = true /\ raw = Returns (JNumber v))
   \/ (exists err, r = {| result := JNull; error := Some err |}))
  /\ (forall w, raw = Returns w -> w <> JNull -> isFiniteNumber w = false ->
        r = {| result := JNull;
               error := Some {| type := computation;
                                message := js "Result is not a finite number";
                                suggestions := [js "Check for division by zero";
                                                js "Verify domain restrictions"] |} |})
  /\ (forall msg, raw = Throws (ThrownError msg) ->
        r = {| result := JNull;
               error := Some {| type := syntax;
                                message := msg;
                                suggestions := [js "Check syntax";
                                                js "Verify function names";
                                                js "Check parentheses"] |} |})
  /\ (raw = Throws ThrownOther ->
        r = {| result := JNull;
               error := Some {| type := syntax;
                                message := js "Unknown error";
                                suggestions := [js "Check syntax";
                                                js "Verify function names";
                                                js "Check parentheses"] |} |})
  /\ (raw = Returns JNull ->
        r = {| result := JNull;
               error := Some {| type := syntax;
                                message := inOperatorMessage;
                                suggestions := [js "Check syntax";
                                                js "Verify function names";
                                                js "Check parentheses"] |} |}).
Proof.
  intros raw r Hreal. subst r. rewrite safeEvaluate_unfold. fold raw.
  split; [|split; [|split; [|split]]].
  - destruct raw as [[| |b|v|z|t| |properties]|] eqn:Hraw;
      unfold computationError, catchBlock; eauto.
    + destruct (isFinite v) eqn:Hv; eauto.
    + specialize (Hreal _ eq_refl). simpl in Hreal. rewrite Hreal. eauto.
  - intros w Hraw Hnull Hw. rewrite Hraw in *.
    destruct w as [| |b|v|z|t| |properties]; try reflexivity.
    + congruence.
    + simpl in Hw. rewrite Hw. reflexivity.
    + specialize (Hreal _ eq_refl). simpl in Hreal. rewrite Hreal. reflexivity.
  - intros msg ->. reflexivity.
  - intros ->. reflexivity.
  - intros ->. reflexivity.
Qed.

(** With an engine whose objects with the key [im] are complex numbers,
    every result of [safeEvaluate] is a number or [null]. *)
Lemma safeEvaluate_numberOrNull e s :
  complexNumbersOnly mathjs -> numberOrNull (result (safeEvaluate e s)).
Proof.
  intros Hcomplex. rewrite safeEvaluate_unfold.
  destruct (mathjs (sanitizeExpression e) s) as [[| |b|v|z|t| |properties]|] eqn:Hraw;
    try (left; reflexivity).
  - destruct (isFinite v); [right; eexists; reflexivity|left; reflexivity].
  - destruct (hasProperty (js "im") properties) eqn:Him; [|left; reflexivity].
    destruct (Hcomplex _ _ _ Hraw Him) as [re Hre]. right. exists re. exact Hre.
Qed.

End SafeEvaluate.

(** The division [1/0]: the engine answers [Infinity], and [safeEvaluate]
    the [computation] error. *)
Lemma safeEvaluate_division_by_zero :
  MathUtils.safeEvaluate (engineConst (MathUtils.JNumber infinity)) [] (js "1/0") ∅
  = MathUtils.computationError.
Proof.
  pose proof (safeEvaluate_value_or_error
                (engineConst (MathUtils.JNumber infinity)) [] (js "1/0") ∅) as H.
  cbv zeta in H. destruct H as (_ & H & _).
  - intros w [= <-]. reflexivity.
  - apply (H (MathUtils.JNumber infinity)); [reflexivity|discriminate|reflexivity].
Defined.

(** C1 at inputs where it fails.  The [try] block returns the [re] property
    of any object in which [im] is a key before it tests for a finite
    number.  When the engine answers a complex number, the value returned
    is its real component whatever it is: [Infinity] for the complex
    infinity (the answer to [i/0]), which is not finite, with no error.
    When the engine answers the object of [{im: 1, re: true}], the value
    returned is a boolean. *)
Theorem safeEvaluate_returns_the_real_part_unchecked
    (inOperatorMessage : jsstring) (variables : MathUtils.scope) :
  (forall re im expression,
     MathUtils.safeEvaluate (engineConst (MathUtils.JComplex re im))
       inOperatorMessage expression variables
     = {| MathUtils.result := MathUtils.JNumber re; MathUtils.error := None |})
  /\ MathUtils.safeEvaluate (engineConst (MathUtils.JComplex infinity infinity))
       inOperatorMessage (js "i/0") variables
     = {| MathUtils.result := MathUtils.JNumber infinity; MathUtils.error := None |}
  /\ isFinite infinity = false
  /\ isFiniteNumber (MathUtils.JComplex infinity infinity) = false
  /\ MathUtils.safeEvaluate (engineConst (MathUtils.JComplex infinity infinity))
       inOperatorMessage (js "i/0") variables
     <> MathUtils.computationError
  /\ MathUtils.safeEvaluate
       (engineConst (MathUtils.JObject [(js "im", MathUtils.JNumber 1);
                                        (js "re", MathUtils.JBoolean true)]))
       inOperatorMessage (js "{im: 1, re: true}") variables
     = {| MathUtils.result := MathUtils.JBoolean true; MathUtils.error := None |}.
Proof.
  split; [intros; reflexivity|]. split; [reflexivity|]. split; [reflexivity|].
  split; [reflexivity|]. split; [discriminate|reflexivity].
Qed.

(** C2 at an input where it fails.  The sanitizer leaves the object literal
    [{im: 1}] as it is; the engine answers an object whose only key is
    [im]; and [safeEvaluate] returns [{ result: undefined, error: null }],
    which is neither a value nor an error. *)
Theorem safeEvaluate_neither_value_nor_error
    (inOperatorMessage : jsstring) (variables : MathUtils.scope) :
  MathUtils.sanitizeExpression (js "{im: 1}") = js "{im: 1}"
  /\ MathUtils.safeEvaluate
       (engineConst (MathUtils.JObject [(js "im", MathUtils.JNumber 1)]))
       inOperatorMessage (js "{im: 1}") variables
     = {| MathUtils.result := MathUtils.JUndefined; MathUtils.error := None |}
  /\ (forall v,
        MathUtils.safeEvaluate
          (engineConst (MathUtils.JObject [(js "im", MathUtils.JNumber 1)]))
          inOperatorMessage (js "{im: 1}") variables
        <> value v)
  /\ (forall err,
        MathUtils.safeEvaluate
          (engineConst (MathUtils.JObject [(js "im", MathUtils.JNumber 1)]))
          inOperatorMessage (js "{im: 1}") variables
        <> {| MathUtils.result := MathUtils.JNull; MathUtils.error := Some err |}).
Proof.
  split; [vm_compute; reflexivity|]. split; [reflexivity|].
  split; intros; discriminate.
Qed.

(** ** The samplers *)

Section Samplers.

Import MathUtils.

Variable mathjs : jsstring -> scope -> Outcome JsValue.
Variable inOperatorMessage : jsstring.
Variable conversions : Conversions.
Variable Math_cos Math_sin : float -> float.

Hypothesis complex_numbers_only : complexNumbersOnly mathjs.

Local Abbreviation evaluateFunction :=
  (MathUtils.evaluateFunction mathjs inOperatorMessage conversions).
Local Abbreviation evaluateParametricFunction :=
  (MathUtils.evaluateParametricFunction mathjs inOperatorMessage conversions).
Local Abbreviation evaluatePolarFunction :=
  (MathUtils.evaluatePolarFunction mathjs inOperatorMessage conversions
     Math_cos Math_sin).

(** A loop that appends the sample of each step it visits computes the
    samples of the walk, in order, after what it started with. *)
Lemma appended_samples {A} (sample : float -> option A) (acc : list A)
    (v : float) (rest : option (list float)) :
  (fun steps =>
     Returns ((acc ++ from_option (fun p => [p]) [] (sample v)) ++ omap sample steps))
    <$> rest
  = (fun steps => Returns (acc ++ omap sample steps)) <$> (cons v <$> rest).
Proof.
  destruct rest as [steps|]; simpl; [|reflexivity].
  do 2 f_equal. rewrite <- app_assoc. f_equal.
  destruct (sample v); reflexivity.
Qed.

Lemma evaluateFunction_loop_walk fuel func max step extra :
  forall v acc,
    evaluateFunction_loop mathjs inOperatorMessage conversions fuel func max
                          step extra v acc
    = (fun steps =>
         Returns (acc ++ omap (cartesianSample mathjs inOperatorMessage func extra)
                           steps))
        <$> domainWalk fuel v max step.
Proof.
  induction fuel as [|fuel IH]; intros v acc; simpl; [reflexivity|].
  destruct (v <=? max)%float; [|simpl; rewrite app_nil_r; reflexivity].
  rewrite <- appended_samples. unfold cartesianSample, valid.
  destruct (safeEvaluate_numberOrNull mathjs inOperatorMessage (expression func)
              (extra ∪ {[ js "x" := v ]}) complex_numbers_only) as [-> | [u ->]];
    simpl.
  - rewrite IH, app_nil_r. reflexivity.
  - destruct (isFinite u); simpl; rewrite IH; [reflexivity|].
    rewrite app_nil_r. reflexivity.
Qed.

Lemma evaluateParametricFunction_loop_walk fuel xe ye param max step extra :
  forall v acc,
    evaluateParametricFunction_loop mathjs inOperatorMessage conversions fuel
                                    xe ye param max step extra v acc
    = (fun steps =>
         Returns (acc ++ omap (parametricSample mathjs inOperatorMessage
                                 xe ye param extra) steps))
        <$> domainWalk fuel v max step.
Proof.
  induction fuel as [|fuel IH]; intros v acc; simpl; [reflexivity|].
  destruct (v <=? max)%float; [|simpl; rewrite app_nil_r; reflexivity].
  rewrite <- appended_samples. unfold parametricSample, valid.
  destruct (safeEvaluate_numberOrNull mathjs inOperatorMessage xe
              (extra ∪ {[ param := v ]}) complex_numbers_only) as [-> | [u ->]];
    destruct (safeEvaluate_numberOrNull mathjs inOperatorMessage ye
                (extra ∪ {[ param := v ]}) complex_numbers_only) as [-> | [w ->]];
    simpl; try (rewrite IH, app_nil_r; reflexivity).
  - destruct (isFinite u); simpl; rewrite IH, app_nil_r; reflexivity.
  - destruct (isFinite u); simpl; [|rewrite IH, app_nil_r; reflexivity].
    destruct (isFinite w); simpl; rewrite IH; [reflexivity|].
    rewrite app_nil_r. reflexivity.
Qed.

Lemma evaluatePolarFunction_loop_walk fuel re max step extra :
  forall v acc,
    evaluatePolarFunction_loop mathjs inOperatorMessage conversions
                               Math_cos Math_sin fuel re max step extra v acc
    = (fun steps =>
         Returns (acc ++ omap (polarSample mathjs inOperatorMessage
                                 Math_cos Math_sin re extra) steps))
        <$> domainWalk fuel v max step.
Proof.
  induction fuel as [|fuel IH]; intros v acc; simpl; [reflexivity|].
  destruct (v <=? max)%float; [|simpl; rewrite app_nil_r; reflexivity].
  rewrite <- appended_samples. unfold polarSample.
  destruct (safeEvaluate_numberOrNull mathjs inOperatorMessage re
              (extra ∪ ({[ js "theta" := v ]} ∪ {[ js "t" := v ]}))
              complex_numbers_only) as [-> | [u ->]];
    simpl.
  - rewrite IH, app_nil_r. reflexivity.
  - destruct (isFinite u); simpl; [|rewrite IH, app_nil_r; reflexivity].
    destruct (isFinite (u * Math_cos v) && isFinite (u * Math_sin v)); simpl;
      rewrite IH; [reflexivity|].
    rewrite app_nil_r. reflexivity.
Qed.

Lemma omap_all_None {A B} (f : A -> option B) (l : list A) :
  Forall (fun a => f a = None) l -> omap f l = [].
Proof.
  induction 1 as [|a l Ha _ IH]; simpl; [reflexivity|]. rewrite Ha. exact IH.
Qed.

Lemma omap_origin {A B} (f : A -> option B) (l : list A) (b : B) :
  b ∈ omap f l -> exists a, a ∈ l /\ f a = Some b.
Proof.
  intros Hb. apply list_elem_of_omap in Hb. exact Hb.
Qed.

Lemma skipInvalidKeepWalking_omap sample steps :
  skipInvalidKeepWalking sample steps (Some (Returns (omap sample steps))).
Proof.
  exists (omap sample steps). split; [reflexivity|]. split; [reflexivity|].
  split; [intros p; apply omap_origin | apply omap_all_None].
Qed.


End Samplers.

(** The engine for [x] answers numbers only. *)
Lemma engineX_complexNumbersOnly : complexNumbersOnly engineX.
Proof.
  intros expression variables properties H. unfold engineX in H.
  destruct (variables !! js "x"); discriminate.
Qed.

(** The engine for [1/x] answers numbers only. *)
Lemma engineReciprocal_complexNumbersOnly : complexNumbersOnly engineReciprocal.
Proof.
  intros expression variables properties H. unfold engineReciprocal in H.
  destruct (variables !! js "x"); discriminate.
Qed.


(** The example of the specification: sampling [f(x) = x] over
    [{min: -1, max: 1, step: 0.5}] gives the five points of the diagonal. *)
Example evaluateFunction_identity :
  MathUtils.evaluateFunction engineX [] notANumber 10
    {| MathUtils.expression := js "x" |} (MathUtils.mkRange (-1) 1 0.5) ∅
  = Some (Returns
            [MathUtils.mkJsPoint (MathUtils.JNumber (-1)) (MathUtils.JNumber (-1));
             MathUtils.mkJsPoint (MathUtils.JNumber (-0.5)) (MathUtils.JNumber (-0.5));
             MathUtils.mkJsPoint (MathUtils.JNumber 0) (MathUtils.JNumber 0);
             MathUtils.mkJsPoint (MathUtils.JNumber 0.5) (MathUtils.JNumber 0.5);
             MathUtils.mkJsPoint (MathUtils.JNumber 1) (MathUtils.JNumber 1)]).
Proof. vm_compute. reflexivity. Qed.

(** C4 at an input where it fails.  The sanitizer leaves the object literal
    [{im: 1, re: true}] as it is, and the engine answers an object with
    these two properties.  [safeEvaluate] hands its [re] on, so every
    evaluation returns [{ result: true, error: null }], which is not valid:
    [true] is not a finite real number.  The sampler tests
    [result !== null && isFinite(result)], and the global [isFinite]
    converts [true] to 1: no step is skipped, and the pass over
    [{min: -1, max: 1, step: 0.5}] returns five points whose ordinate is
    [true], although every sample is invalid. *)
Theorem evaluateFunction_keeps_invalid_samples
    (inOperatorMessage : jsstring) (conversions : MathUtils.Conversions) :
  let literal := js "{im: 1, re: true}" in
  let engine :=
    engineConst (MathUtils.JObject [(js "im", MathUtils.JNumber 1);
                                    (js "re", MathUtils.JBoolean true)]) in
  MathUtils.sanitizeExpression literal = literal
  /\ (forall variables,
        MathUtils.safeEvaluate engine inOperatorMessage literal variables
        = {| MathUtils.result := MathUtils.JBoolean true; MathUtils.error := None |}
        /\ valid (MathUtils.safeEvaluate engine inOperatorMessage literal variables)
           = false)
  /\ Forall (fun v => cartesianSample engine inOperatorMessage
                        {| MathUtils.expression := literal |} ∅ v = None)
            [(-1)%float; (-0.5)%float; 0%float; 0.5%float; 1%float]
  /\ MathUtils.evaluateFunction engine inOperatorMessage conversions 10
       {| MathUtils.expression := literal |} (MathUtils.mkRange (-1) 1 0.5) ∅
     = Some (Returns
               [MathUtils.mkJsPoint (MathUtils.JNumber (-1)) (MathUtils.JBoolean true);
                MathUtils.mkJsPoint (MathUtils.JNumber (-0.5)) (MathUtils.JBoolean true);
                MathUtils.mkJsPoint (MathUtils.JNumber 0) (MathUtils.JBoolean true);
                MathUtils.mkJsPoint (MathUtils.JNumber 0.5) (MathUtils.JBoolean true);
                MathUtils.mkJsPoint (MathUtils.JNumber 1) (MathUtils.JBoolean true)]).
Proof.
  cbv zeta. split; [vm_compute; reflexivity|].
  split; [intros; split; reflexivity|].
  split; [repeat constructor|]. vm_compute. reflexivity.
Qed.

(** ** The integral *)

Section Integral.

Import MathUtils.

Variable mathjs : jsstring -> scope -> Outcome JsValue.
Variable inOperatorMessage : jsstring.
Variable conversions : Conversions.

Hypothesis complex_numbers_only : complexNumbersOnly mathjs.

Local Abbreviation f expression extra :=
  (fun v : float =>
     result (MathUtils.safeEvaluate mathjs inOperatorMessage expression
               (<[ js "x" := v ]> extra))).

(** A summation loop that ends adds the weighted values in the order of
    its counter, and leaves with [null] when one of its samples is
    [null]. *)
Lemma integralLoop_walk expression extra a h weight n fuel :
  forall i (sum : float) counters,
    countByTwo fuel i n = Some counters ->
    integralLoop mathjs inOperatorMessage conversions fuel expression extra
                 a h weight n i (JNumber sum)
    = Some (Returns
              (if existsb (fun i => isNull (f expression extra (a + i * h)%float))
                          counters
               then None
               else Some (JNumber
                            (fold_left
                               (fun acc i =>
                                  (acc + weight
                                         * numberOf (f expression extra
                                                       (a + i * h)%float))%float)
                               counters sum)))).
Proof.
  induction fuel as [|fuel IH]; intros i sum counters; simpl; [discriminate|].
  destruct (i <? n)%float; [|intros [= <-]; reflexivity].
  destruct (countByTwo fuel (i + 2) n) as [rest|] eqn:Hrest; [|discriminate].
  intros [= <-]. simpl.
  destruct (safeEvaluate_numberOrNull mathjs inOperatorMessage expression
              (<[ js "x" := (a + i * h)%float ]> extra) complex_numbers_only)
    as [-> | [u ->]]; simpl; [reflexivity|].
  apply IH. exact Hrest.
Qed.


End Integral.


(** C5 at an input where it fails.  For the integrand [i/x] over [[0, 1]]
    with two subintervals, the sample at the endpoint 0 is the complex
    infinity, whose real component [safeEvaluate] hands on as a value: the
    sample is invalid (not finite), and the integral is [Infinity], not
    [null]. *)
Theorem numericalIntegral_of_an_infinite_sample (conversions : MathUtils.Conversions) :
  valid (MathUtils.safeEvaluate engineIOverX [] (js "i/x") (<[ js "x" := 0%float ]> ∅))
  = false
  /\ MathUtils.result
       (MathUtils.safeEvaluate engineIOverX [] (js "i/x") (<[ js "x" := 0%float ]> ∅))
     = MathUtils.JNumber infinity
  /\ MathUtils.numericalIntegral engineIOverX [] conversions 10 (js "i/x") 0 1 2 ∅
     = Some (Returns (Some infinity)).
Proof. repeat split; vm_compute; reflexivity. Qed.

(** ** The sanitizer *)

Section Sanitizer.

Import MathUtils.

Lemma matchQuote_headOnly : headOnly matchQuote isQuote.
Proof. intros prev [|c s]; reflexivity. Qed.

Lemma matchUnit_headOnly u : headOnly (matchUnit u) (fun c => (c =? u)%N).
Proof. intros prev [|c s]; reflexivity. Qed.

(** A replacement pass keeps a property of the code units that its
    replacement has. *)
Lemma replaceAll_from_preserves (P : N -> Prop) m r :
  Forall P r ->
  forall s prev skip, Forall P s -> Forall P (replaceAll_from m r prev skip s).
Proof.
  intros Hr. induction s as [|c rest IH]; intros prev skip Hs; simpl.
  - destruct skip; [destruct (m prev [])|]; auto.
  - inversion Hs as [|? ? Hc Hrest]; subst.
    destruct skip as [|k]; [|auto].
    destruct (m prev (c :: rest)) as [[|k]|].
    + apply Forall_app. split; [exact Hr|]. constructor; auto.
    + apply Forall_app. split; auto.
    + constructor; auto.
Qed.

Lemma replaceAll_preserves (P : N -> Prop) m r s :
  Forall P r -> Forall P s -> Forall P (replaceAll m r s).
Proof. intros Hr Hs. apply replaceAll_from_preserves; assumption. Qed.

(** Replacing the code units of a class by a string that has none leaves
    none. *)
Lemma replaceAll_class_removed m cls r s :
  headOnly m cls -> Forall (fun c => cls c = false) r ->
  Forall (fun c => cls c = false) (replaceAll m r s).
Proof.
  intros Hm Hr. unfold replaceAll. generalize (@None N).
  induction s as [|c rest IH]; intros prev; simpl.
  - rewrite Hm. constructor.
  - rewrite Hm. destruct (cls c) eqn:Hc.
    + apply Forall_app. split; auto.
    + constructor; auto.
Qed.

(** Replacing the code units of a class changes nothing where there are
    none. *)
Lemma replaceAll_class_absent m cls r s :
  headOnly m cls -> Forall (fun c => cls c = false) s -> replaceAll m r s = s.
Proof.
  intros Hm. unfold replaceAll. generalize (@None N).
  induction s as [|c rest IH]; intros prev Hs; simpl.
  - rewrite Hm. reflexivity.
  - inversion Hs as [|? ? Hc Hrest]; subst. rewrite Hm, Hc. f_equal. auto.
Qed.

Lemma trimStart_preserves (P : N -> Prop) s :
  Forall P s -> Forall P (trimStart s).
Proof.
  induction 1 as [|c s Hc Hs IH]; simpl; [constructor|].
  destruct (isWhiteSpace c); [exact IH|constructor; assumption].
Qed.

Lemma trim_preserves (P : N -> Prop) s : Forall P s -> Forall P (trim s).
Proof.
  intros H. unfold trim, trimEnd.
  apply Forall_rev, trimStart_preserves, Forall_rev, trimStart_preserves, H.
Qed.

Lemma trimStart_trimmed s : trimmedStart (trimStart s).
Proof.
  induction s as [|c s IH]; simpl; [exact I|].
  destruct (isWhiteSpace c) eqn:Hc; [exact IH|exact Hc].
Qed.

Lemma trimStart_fixed s : trimmedStart s -> trimStart s = s.
Proof. destruct s as [|c s]; simpl; [reflexivity|]. intros ->. reflexivity. Qed.

Lemma trimStart_snoc s c :
  isWhiteSpace c = false -> exists w, trimStart (s ++ [c]) = w ++ [c].
Proof.
  intros Hc. induction s as [|d s IH]; simpl.
  - rewrite Hc. exists []. reflexivity.
  - destruct (isWhiteSpace d); [exact IH|]. exists (d :: s). reflexivity.
Qed.

Lemma trimEnd_trimmed s : trimmedStart s -> trimmedStart (trimEnd s).
Proof.
  unfold trimEnd. destruct s as [|c s]; simpl; [intros _; exact I|].
  intros Hc. destruct (trimStart_snoc (rev s) c Hc) as [w ->].
  rewrite rev_app_distr. simpl. exact Hc.
Qed.

Lemma trim_idempotent s : trim (trim s) = trim s.
Proof.
  unfold trim.
  rewrite (trimStart_fixed (trimEnd (trimStart s))).
  - unfold trimEnd. rewrite rev_involutive.
    rewrite (trimStart_fixed (trimStart _)); [reflexivity|apply trimStart_trimmed].
  - apply trimEnd_trimmed, trimStart_trimmed.
Qed.

(** Following a class of code units through the passes: each pass either
    removes the class or keeps it absent. *)
Ltac through_passes :=
  unfold sanitizeExpression; cbv zeta; apply trim_preserves;
  repeat first
    [ apply (replaceAll_class_removed _ _ _ _ (matchUnit_headOnly _));
      vm_compute; repeat constructor
    | apply (replaceAll_class_removed _ _ _ _ matchQuote_headOnly);
      vm_compute; repeat constructor
    | apply replaceAll_preserves; [vm_compute; repeat constructor|] ].

Lemma sanitized_no_quote e :
  Forall (fun c => isQuote c = false) (sanitizeExpression e).
Proof. through_passes. Qed.

Lemma sanitized_no_symbol e u :
  In u [215; 247; 960; 8730; 8734; 177; 8776]%N ->
  Forall (fun c => (c =? u)%N = false) (sanitizeExpression e).
Proof.
  intros Hu. repeat (destruct Hu as [<-|Hu]; [through_passes|]). destruct Hu.
Qed.

(** The positive part of C3: a sanitized string that the three denylist
    passes leave alone is a fixed point of the sanitizer.  So the sanitizer
    can only fail to be idempotent on an input whose sanitized form still
    holds a denylisted keyword, two dots in a row or a template
    interpolation. *)
Lemma sanitizeExpression_fixed_point e :
  denylistFree (sanitizeExpression e) ->
  sanitizeExpression (sanitizeExpression e) = sanitizeExpression e.
Proof.
  intros (Hkeyword & Hdots & Htemplate).
  assert (Htrim : trim (sanitizeExpression e) = sanitizeExpression e)
    by (unfold sanitizeExpression; cbv zeta; apply trim_idempotent).
  pose proof (sanitized_no_quote e) as Hquote.
  pose proof (sanitized_no_symbol e) as Hsymbol.
  remember (sanitizeExpression e) as s eqn:Hs.
  unfold sanitizeExpression. cbv zeta.
  rewrite (replaceAll_class_absent _ _ _ _ matchQuote_headOnly Hquote).
  rewrite Hkeyword, Hdots, Htemplate.
  repeat (rewrite (replaceAll_class_absent _ _ _ s (matchUnit_headOnly _));
          [|apply Hsymbol; simpl; tauto]).
  exact Htrim.
Qed.

End Sanitizer.

(** The sanitized form of [" 2×π "] is ["2*pi"], which the denylist passes
    leave alone: sanitizing it again changes nothing. *)
Lemma sanitizeExpression_fixed_point_example :
  MathUtils.sanitizeExpression (js " 2" ++ [215%N; 960%N] ++ js " ") = js "2*pi"
  /\ denylistFree (MathUtils.sanitizeExpression (js " 2" ++ [215%N; 960%N] ++ js " "))
  /\ MathUtils.sanitizeExpression
       (MathUtils.sanitizeExpression (js " 2" ++ [215%N; 960%N] ++ js " "))
     = MathUtils.sanitizeExpression (js " 2" ++ [215%N; 960%N] ++ js " ").
Proof.
  assert (H : denylistFree
                (MathUtils.sanitizeExpression (js " 2" ++ [215%N; 960%N] ++ js " "))).
  { repeat split; vm_compute; reflexivity. }
  split; [vm_compute; reflexivity|]. split; [exact H|].
  apply (sanitizeExpression_fixed_point _ H).
Defined.

(** C3 at an input where it fails.  Removing the two dots of ["e..val"]
    happens after the keyword pass and leaves the keyword ["eval"] in the
    output; a second pass removes it. *)
Theorem sanitizeExpression_not_idempotent :
  MathUtils.sanitizeExpression (js "e..val") = js "eval"
  /\ MathUtils.sanitizeExpression (MathUtils.sanitizeExpression (js "e..val")) = []
  /\ MathUtils.sanitizeExpression (MathUtils.sanitizeExpression (js "e..val"))
     <> MathUtils.sanitizeExpression (js "e..val").
Proof.
  split; [vm_compute; reflexivity|]. split; [vm_compute; reflexivity|].
  vm_compute. discriminate.
Qed.

(** ** The classifier *)

(** C9.  On ["sin(x)"] the first test of the decision list, for a
    trigonometric name, answers; on ["x^2+2*x+1"] no test before the degree
    does, and the degree is 2; the empty string is answered before the list.
    This holds whatever the runtime's case mapping does outside ASCII. *)
Theorem detectFunctionType_examples (unicodeToLowerCase : jsstring -> jsstring) :
  FunctionTypeDetector.detectFunctionType unicodeToLowerCase (js "sin(x)")
  = FunctionTypeDetector.trigonometric
  /\ FunctionTypeDetector.detectFunctionType unicodeToLowerCase (js "x^2+2*x+1")
     = FunctionTypeDetector.quadratic
  /\ FunctionTypeDetector.getPolynomialDegree unicodeToLowerCase (js "x^2+2*x+1")
     = 2%N
  /\ FunctionTypeDetector.detectFunctionType unicodeToLowerCase []
     = FunctionTypeDetector.polynomial.
Proof.
  repeat split; vm_compute; reflexivity.
Qed.

(** ** The regressions *)

Section Regression.

Import Statistics.

Variable ss_linearRegression : list (float * float) -> Line.
Variable ss_mean : list float -> float.
Variable Math_pow : float -> float -> float.
Variable toFixed : float -> nat -> jsstring.
Variable numberToString : float -> jsstring.

Local Abbreviation linearRegression :=
  (Statistics.linearRegression ss_linearRegression ss_mean Math_pow toFixed).
Local Abbreviation quadraticRegression :=
  (Statistics.quadraticRegression ss_mean Math_pow toFixed).
Local Abbreviation polynomialRegression :=
  (Statistics.polynomialRegression ss_linearRegression ss_mean Math_pow toFixed
     numberToString).

(** The power sums of the abscissas do not look at the ordinates. *)
Lemma power_sums_of_abscissas data :
  forall s,
    let s' := fold_left addPoint data s in
    sumX s' = fold_left (fun acc x => acc + x)%float (map x data) (sumX s)
    /\ sumX2 s' = fold_left (fun acc x => acc + x * x)%float (map x data) (sumX2 s)
    /\ sumX3 s' = fold_left (fun acc x => acc + x * x * x)%float (map x data) (sumX3 s)
    /\ sumX4 s'
       = fold_left (fun acc x => acc + (x * x) * (x * x))%float (map x data) (sumX4 s).
Proof.
  induction data as [|point data IH]; intros s; simpl; [auto|].
  apply (IH (addPoint s point)).
Qed.

Lemma determinant_of_abscissas data :
  determinant (ofNat (length data)) (fold_left addPoint data noSums)
  = normalDeterminant (map x data).
Proof.
  unfold determinant, normalDeterminant.
  destruct (power_sums_of_abscissas data noSums) as (-> & -> & -> & ->).
  rewrite length_map. reflexivity.
Qed.

Lemma quadraticRegression_cases data :
  quadraticRegression data
  = Throws (ThrownError (js "Need at least 3 data points for quadratic regression"))
    /\ length data < 3
  \/ quadraticRegression data = Throws singularMatrix
     /\ 3 <= length data
     /\ (Math_abs (normalDeterminant (map x data)) <? 1e-10)%float = true
  \/ (exists r, quadraticRegression data = Returns r)
     /\ 3 <= length data
     /\ (Math_abs (normalDeterminant (map x data)) <? 1e-10)%float = false.
Proof.
  unfold Statistics.quadraticRegression.
  destruct (length data <? 3) eqn:Hlen.
  - left. apply Nat.ltb_lt in Hlen. auto.
  - right. apply Nat.ltb_ge in Hlen. rewrite determinant_of_abscissas.
    destruct (Math_abs _ <? 1e-10)%float; [left; auto|right].
    destruct (sumsOfSquares _ _ _ _). eauto.
Qed.

(** The guard of the quadratic fit: it raises the singular-matrix error
    exactly when it is given three points or more and the determinant of
    the normal equations, as computed, is below 1e-10 in absolute value.
    That determinant is a function of the abscissas alone: two datasets
    with the same abscissas raise it together, whatever their ordinates, so
    the error does not tell whether the points are collinear. *)
Theorem quadraticRegression_singular_iff data :
  (quadraticRegression data = Throws singularMatrix
   <-> 3 <= length data
       /\ (Math_abs (normalDeterminant (map x data)) <? 1e-10)%float = true)
  /\ (forall data',
        map x data' = map x data ->
        (quadraticRegression data' = Throws singularMatrix
         <-> quadraticRegression data = Throws singularMatrix)).
Proof.
  assert (Hiff : forall d,
             quadraticRegression d = Throws singularMatrix
             <-> 3 <= length d
                 /\ (Math_abs (normalDeterminant (map x d)) <? 1e-10)%float = true).
  { intros d.
    destruct (quadraticRegression_cases d) as [[E Hl]|[[E [Hl Hd]]|[[r E] [Hl Hd]]]];
      rewrite E; split; try (intros [? ?]); try intros ?;
      try discriminate; try lia; try congruence; auto. }
  split; [apply Hiff|].
  intros data' Hx. rewrite !Hiff, Hx.
  replace (length data') with (length data); [reflexivity|].
  rewrite <- (length_map x data), <- Hx. apply length_map.
Qed.

(** C7, amended.  With at least [degree + 1] points, [polynomialRegression]
    does what [linearRegression] does for every degree other than 2 (it
    returns the same result, or raises the same error when there are fewer
    than two points), and what the quadratic fit does for degree 2.  With
    fewer than [degree + 1] points it raises its own error, whatever the
    degree. *)
Theorem polynomialRegression_falls_back data degree :
  ((ofNat (length data) <? degree + 1)%float = false ->
   (degree =? 2)%float = false ->
   polynomialRegression data degree = linearRegression data)
  /\ ((ofNat (length data) <? degree + 1)%float = false ->
      (degree =? 2)%float = true ->
      polynomialRegression data degree = quadraticRegression data)
  /\ ((ofNat (length data) <? degree + 1)%float = true ->
      polynomialRegression data degree
      = Throws (ThrownError (js "Need at least " ++ numberToString (degree + 1)%float
                               ++ js " data points for degree "
                               ++ numberToString degree ++ js " polynomial"))).
Proof.
  unfold Statistics.polynomialRegression.
  repeat split; intros Hlen; rewrite Hlen; try intros ->; reflexivity.
Qed.

End Regression.

(** Three points that share the abscissa 1: the determinant is 0 and the fit
    raises the singular-matrix error. *)
Lemma quadraticRegression_singular_example :
  (3 <= length [Statistics.mkData 1 0; Statistics.mkData 1 1; Statistics.mkData 1 2]
   /\ (Math_abs (normalDeterminant
                  (map Statistics.x [Statistics.mkData 1 0; Statistics.mkData 1 1;
                                     Statistics.mkData 1 2])) <? 1e-10)%float = true)
  /\ Statistics.quadraticRegression meanOf squareOf noDigits
       [Statistics.mkData 1 0; Statistics.mkData 1 1; Statistics.mkData 1 2]
     = Throws Statistics.singularMatrix.
Proof.
  assert (H : 3 <= length [Statistics.mkData 1 0; Statistics.mkData 1 1;
                           Statistics.mkData 1 2]
              /\ (Math_abs (normalDeterminant
                             (map Statistics.x
                                [Statistics.mkData 1 0; Statistics.mkData 1 1;
                                 Statistics.mkData 1 2])) <? 1e-10)%float = true).
  { split; [simpl; lia|vm_compute; reflexivity]. }
  split; [exact H|].
  apply (proj2 (proj1 (quadraticRegression_singular_iff meanOf squareOf noDigits _)) H).
Defined.

(** The points (0,0), (1,1), (2,2) of the line [y = x] have three
    abscissas: the system is regular, the determinant is 4 and the fit
    returns a result. *)
Lemma quadraticRegression_collinear_is_fitted :
  Forall (fun p => Statistics.y p = Statistics.x p)
         [Statistics.mkData 0 0; Statistics.mkData 1 1; Statistics.mkData 2 2]
  /\ normalDeterminant [0%float; 1%float; 2%float] = 4%float
  /\ (exists r,
        Statistics.quadraticRegression meanOf squareOf noDigits
          [Statistics.mkData 0 0; Statistics.mkData 1 1; Statistics.mkData 2 2]
        = Returns r)
  /\ Statistics.quadraticRegression meanOf squareOf noDigits
       [Statistics.mkData 0 0; Statistics.mkData 1 1; Statistics.mkData 2 2]
     <> Throws Statistics.singularMatrix.
Proof.
  split; [repeat constructor|]. split; [vm_compute; reflexivity|].
  split; [eexists; vm_compute; reflexivity|]. vm_compute. discriminate.
Qed.

(** C6 at an input where it fails.  Three points that share the abscissa
    100.1 are a degenerate set: with one abscissa the system of the normal
    equations is singular, its determinant being 0 in exact arithmetic
    whatever the abscissa.  Computed in doubles, the determinant is
    0.0033..., which is not below 1e-10: no error is raised, the numerators
    are divided by this rounding residue, and a fit is returned. *)
Theorem quadraticRegression_misses_a_singular_system
    (ss_mean : list float -> float) (Math_pow : float -> float -> float)
    (toFixed : float -> nat -> jsstring) :
  let data :=
    [Statistics.mkData 100.1 0; Statistics.mkData 100.1 1;
     Statistics.mkData 100.1 2] in
  (forall abscissa : Z, exactDeterminant [abscissa; abscissa; abscissa] = 0%Z)
  /\ normalDeterminant (map Statistics.x data) = 0.0033050537109374986%float
  /\ (Math_abs (normalDeterminant (map Statistics.x data)) <? 1e-10)%float = false
  /\ (exists fit,
        Statistics.quadraticRegression ss_mean Math_pow toFixed data = Returns fit
        /\ Statistics.coefficients fit
           = [1%float; (-0.016941076896857692)%float; 0%float])
  /\ Statistics.quadraticRegression ss_mean Math_pow toFixed data
     <> Throws Statistics.singularMatrix.
Proof.
  cbv zeta. split; [intros abscissa; unfold exactDeterminant; cbn; ring|].
  split; [vm_compute; reflexivity|]. split; [vm_compute; reflexivity|].
  split; [eexists; split; vm_compute; reflexivity|].
  vm_compute. discriminate.
Qed.

(** On the same three points the coefficients returned are [[c; b; a]] with
    [b = -28.5], where the least-squares parabola is the line itself
    ([b = 1]): the numerator of [b] ends in
    [sumX2Y * (sumX * sumX2 - n * sumX3)], which is not the third term of the
    expansion of the determinant that Cramer's rule asks for. *)
Example quadraticRegression_line_coefficients :
  Statistics.coefficients
    <$> match Statistics.quadraticRegression meanOf squareOf noDigits
                [Statistics.mkData 0 0; Statistics.mkData 1 1; Statistics.mkData 2 2]
        with
        | Returns r => Some r
        | Throws _ => None
        end
  = Some [0%float; (-28.5)%float; 0%float].
Proof. vm_compute. reflexivity. Qed.

(** Two points are enough for degree 1. *)
Lemma polynomialRegression_degree_one :
  (ofNat (length [Statistics.mkData 0 0; Statistics.mkData 1 1]) <? 1 + 1)%float = false
  /\ Statistics.polynomialRegression flatLine meanOf squareOf noDigits noText
       [Statistics.mkData 0 0; Statistics.mkData 1 1] 1
     = Statistics.linearRegression flatLine meanOf squareOf noDigits
         [Statistics.mkData 0 0; Statistics.mkData 1 1].
Proof.
  split; [vm_compute; reflexivity|].
  apply (proj1 (polynomialRegression_falls_back flatLine meanOf squareOf noDigits
                  noText [Statistics.mkData 0 0; Statistics.mkData 1 1] 1));
    vm_compute; reflexivity.
Defined.

(** C7 as stated fails for two points and degree 3: the linear fit returns a
    result, and [polynomialRegression] raises its error about four points. *)
Lemma polynomialRegression_degree_three_of_two_points :
  2 <= length [Statistics.mkData 0 0; Statistics.mkData 1 1]
  /\ (3 =? 2)%float = false
  /\ (exists r,
        Statistics.linearRegression flatLine meanOf squareOf noDigits
          [Statistics.mkData 0 0; Statistics.mkData 1 1] = Returns r)
  /\ (exists e,
        Statistics.polynomialRegression flatLine meanOf squareOf noDigits noText
          [Statistics.mkData 0 0; Statistics.mkData 1 1] 3 = Throws e)
  /\ Statistics.polynomialRegression flatLine meanOf squareOf noDigits noText
       [Statistics.mkData 0 0; Statistics.mkData 1 1] 3
     <> Statistics.linearRegression flatLine meanOf squareOf noDigits
          [Statistics.mkData 0 0; Statistics.mkData 1 1].
Proof.
  split; [simpl; lia|]. split; [reflexivity|].
  split; [eexists; vm_compute; reflexivity|].
  split; [eexists; vm_compute; reflexivity|]. vm_compute. discriminate.
Qed.

(** ** The curve simplifier *)

Section Simplify.

Import GraphUtils.

(** A tolerance above zero is not below zero. *)
Lemma positive_not_negative (t : float) :
  (0 <? t)%float = true -> (t <? 0)%float = false.
Proof.
  rewrite !ltb_spec. change (Prim2SF 0) with (S754_zero false).
  unfold SFltb.
  destruct (Prim2SF t) as [s|s| |s m e]; simpl;
    try discriminate; try reflexivity; destruct s; try discriminate; reflexivity.
Qed.

Lemma furthest_searched points first last_ :
  searched points first last_ (furthest points first last_).
Proof.
  unfold furthest.
  assert (Hseq : Forall (fun i => 1 <= i < length points - 1)
                        (seq 1 (length points - 2))).
  { apply Forall_forall. intros i Hi. apply elem_of_seq in Hi. lia. }
  assert (Hinit : searched points first last_ (0%float, 0)) by (left; auto).
  revert Hseq Hinit. generalize (0%float, 0). generalize (seq 1 (length points - 2)).
  intros l. induction l as [|i l IH]; intros [d k] Hl Hstate; simpl; [exact Hstate|].
  inversion Hl as [|? ? Hi Hrest]; subst. apply IH; [exact Hrest|].
  destruct (points !! i) as [p|] eqn:Hp; [|exact Hstate].
  destruct (gtb _ d); [|exact Hstate].
  right. simpl. split; [exact Hi|]. eauto.
Qed.

Lemma douglasPeucker_unfold fuel points tolerance :
  douglasPeucker (S fuel) points tolerance =
  match points with
  | first :: _ :: _ :: _ =>
      let last_ := default first (last points) in
      let '(maxDistance, maxIndex) := furthest points first last_ in
      if gtb maxDistance tolerance
      then
        match douglasPeucker fuel (take (maxIndex + 1) points) tolerance with
        | None => None
        | Some left_ =>
            match douglasPeucker fuel (drop maxIndex points) tolerance with
            | None => None
            | Some right_ => Some (take (length left_ - 1) left_ ++ right_)
            end
        end
      else Some [first; last_]
  | _ => Some points
  end.
Proof. reflexivity. Qed.

Lemma init_snoc {A} (l : list A) (a : A) :
  last l = Some a -> l = take (length l - 1) l ++ [a].
Proof.
  intros Hl. apply last_Some in Hl as [l' ->].
  rewrite length_app. simpl.
  replace (length l' + 1 - 1) with (length l') by lia.
  rewrite take_app_length. reflexivity.
Qed.

(** Joining the two simplified halves at the point they share. *)
Lemma joined_halves (points outL outR : list Point2D) (k : nat) (first pk : Point2D) :
  1 <= k -> head points = Some first -> points !! k = Some pk ->
  outL `sublist_of` take (k + 1) points -> head outL = Some first ->
  last outL = Some pk ->
  outR `sublist_of` drop k points -> head outR = Some pk ->
  last outR = last points ->
  let out := take (length outL - 1) outL ++ outR in
  out `sublist_of` points /\ head out = Some first /\ last out = last points.
Proof.
  intros Hk Hhead Hpk HsubL HheadL HlastL HsubR HheadR HlastR out.
  pose proof (init_snoc _ _ HlastL) as HL. subst out.
  set (l' := take (length outL - 1) outL) in *.
  replace (k + 1) with (S k) in HsubL by lia.
  rewrite (take_S_r _ _ _ Hpk), HL in HsubL.
  apply sublist_app_inv_r in HsubL.
  destruct outR as [|r outR']; [discriminate|]. simpl in HheadR.
  split; [|split].
  - rewrite <- (take_drop k points). apply sublist_app; assumption.
  - destruct l' as [|a l'']; simpl.
    + rewrite HL in HheadL. simpl in HheadL. congruence.
    + rewrite HL in HheadL. simpl in HheadL. exact HheadL.
  - rewrite last_app_cons. exact HlastR.
Qed.

(** The positive part of C10: for a tolerance that is not negative, the
    simplifier returns (the recursion ends within [length points] levels),
    and its output is an order-preserving subsequence of the input with the
    same first and the same last point. *)
Lemma douglasPeucker_subsequence tolerance :
  (tolerance <? 0)%float = false ->
  forall fuel points,
    length points < fuel ->
    exists out,
      douglasPeucker fuel points tolerance = Some out
      /\ out `sublist_of` points
      /\ head out = head points
      /\ last out = last points.
Proof.
  intros Htol. induction fuel as [|fuel IH]; intros points Hfuel; [lia|].
  rewrite douglasPeucker_unfold.
  destruct points as [|first [|second [|third rest]]];
    try (eexists; split; [reflexivity|auto]).
  cbv beta iota zeta.
  remember (first :: second :: third :: rest) as points eqn:Hpoints.
  assert (Hlen : length points = S (S (S (length rest)))) by (subst; reflexivity).
  assert (Hhead : head points = Some first) by (subst; reflexivity).
  set (last_ := default first (last points)).
  assert (Hlast : last points = Some last_).
  { subst last_. destruct (last points) eqn:E; [reflexivity|].
    apply last_None in E. subst points. discriminate. }
  clearbody last_.
  pose proof (furthest_searched points first last_) as Hs.
  destruct (furthest points first last_) as [d k]. cbv beta iota zeta.
  destruct (gtb d tolerance) eqn:Hgt.
  - destruct Hs as [[Hd Hk]|[Hk [pk [Hpk Hd]]]]; simpl in Hd, Hk.
    { subst d. unfold gtb in Hgt. congruence. }
    simpl in Hpk.
    destruct (IH (take (k + 1) points)) as [outL (EL & HsubL & HheadL & HlastL)].
    { rewrite length_take. lia. }
    destruct (IH (drop k points)) as [outR (ER & HsubR & HheadR & HlastR)].
    { rewrite length_drop. lia. }
    rewrite EL, ER. eexists. split; [reflexivity|].
    assert (Hdrop : drop k points = pk :: drop (S k) points)
      by (apply drop_S; exact Hpk).
    rewrite Hhead.
    apply (joined_halves points outL outR k first pk); auto.
    + lia.
    + rewrite HheadL. replace (k + 1) with (S k) by lia.
      rewrite (take_S_r _ _ _ Hpk).
      destruct k as [|k']; [lia|]. rewrite Hpoints. reflexivity.
    + rewrite HlastL. replace (k + 1) with (S k) by lia.
      rewrite (take_S_r _ _ _ Hpk). apply last_snoc.
    + rewrite HheadR, Hdrop. reflexivity.
    + rewrite HlastR, Hdrop.
      rewrite <- (take_drop k points) at 2. rewrite Hdrop.
      symmetry. apply last_app_cons.
  - eexists. split; [reflexivity|]. split; [|split].
    + apply last_Some in Hlast as [l' Hl'].
      destruct l' as [|a l'']; [subst points; destruct rest; discriminate|].
      rewrite Hl'. rewrite Hl' in Hhead. injection Hhead as ->.
      change [first; last_] with ([first] ++ [last_]).
      change ((first :: l'') ++ [last_]) with ([first] ++ (l'' ++ [last_])).
      apply sublist_app; [reflexivity|]. apply sublist_inserts_l. reflexivity.
    + rewrite Hhead. reflexivity.
    + rewrite Hlast. reflexivity.
Qed.

(** The same for the entry point [simplifyPoints]. *)
Lemma simplifyPoints_subsequence tolerance fuel points :
  (tolerance <? 0)%float = false ->
  length points < fuel ->
  exists out,
    simplifyPoints fuel points tolerance = Some out
    /\ out `sublist_of` points
    /\ head out = head points
    /\ last out = last points.
Proof.
  intros Htol Hfuel. unfold simplifyPoints.
  destruct (length points <=? 2); [eexists; split; [reflexivity|auto]|].
  apply douglasPeucker_subsequence; assumption.
Qed.

(** With three points or more, when no interior point is farther from the
    chord than the tolerance, the recursion stops at once. *)
Lemma douglasPeucker_collapses fuel tolerance first middle last_ :
  (tolerance <? 0)%float = false ->
  middle <> [] ->
  Forall (fun p => gtb (distanceToLine p first last_) tolerance = false) middle ->
  douglasPeucker (S fuel) (first :: middle ++ [last_]) tolerance
  = Some [first; last_].
Proof.
  intros Htol Hmiddle Hall.
  remember (first :: middle ++ [last_]) as points eqn:Hpoints.
  rewrite douglasPeucker_unfold.
  assert (Hlen : length points = S (length middle + 1))
    by (subst; simpl; rewrite length_app; reflexivity).
  assert (Hlast : default first (last points) = last_).
  { subst points. rewrite app_comm_cons, last_snoc. reflexivity. }
  assert (Hshape : exists second third rest, points = first :: second :: third :: rest).
  { subst points. destruct middle as [|m [|m' ms]]; [congruence| |];
      simpl; eauto. }
  destruct Hshape as (second & third & rest & Hshape).
  rewrite Hshape. cbv beta iota zeta. rewrite <- Hshape, Hlast.
  pose proof (furthest_searched points first last_) as Hs.
  destruct (furthest points first last_) as [d k]. cbv beta iota zeta.
  destruct Hs as [[Hd Hk]|[Hk [pk [Hpk Hd]]]]; simpl in Hd, Hk.
  - subst d. unfold gtb. rewrite Htol. reflexivity.
  - simpl in Hpk. subst d.
    assert (Hin : pk ∈ middle).
    { subst points. destruct k as [|k']; [lia|]. simpl in Hpk.
      rewrite lookup_app_l in Hpk by lia.
      eapply list_elem_of_lookup_2. exact Hpk. }
    rewrite Forall_forall in Hall. rewrite (Hall pk Hin). reflexivity.
Qed.

(** C8, amended.  For a tolerance above zero, a polyline none of whose
    interior points is farther than the tolerance from the chord between
    its first and its last point (the distance to the segment, as
    [distanceToLine] computes it) collapses to exactly these two points;
    and an input of two points or fewer is returned unchanged. *)
Theorem simplifyPoints_collapses fuel tolerance first middle last_ :
  ((0 <? tolerance)%float = true ->
   Forall (fun p => gtb (distanceToLine p first last_) tolerance = false) middle ->
   simplifyPoints (S fuel) (first :: middle ++ [last_]) tolerance
   = Some [first; last_])
  /\ (forall points,
        length points <= 2 -> simplifyPoints fuel points tolerance = Some points).
Proof.
  split.
  - intros Htol Hall. apply positive_not_negative in Htol.
    unfold simplifyPoints. destruct middle as [|m ms]; [reflexivity|].
    replace (length (first :: (m :: ms) ++ [last_]) <=? 2) with false.
    + apply douglasPeucker_collapses; [assumption|discriminate|assumption].
    + symmetry. apply Nat.leb_gt. simpl. rewrite length_app. simpl. lia.
  - intros points Hlen. unfold simplifyPoints.
    apply Nat.leb_le in Hlen. rewrite Hlen. reflexivity.
Qed.

End Simplify.

(** Three points of the abscissa axis in walking order collapse to the two
    ends. *)
Lemma simplifyPoints_collapses_a_segment :
  ((0 <? 0.5)%float = true
   /\ Forall (fun p => gtb (GraphUtils.distanceToLine p (mkPoint 0 0) (mkPoint 2 0))
                           0.5 = false) [mkPoint 1 0])
  /\ GraphUtils.simplifyPoints 1 (mkPoint 0 0 :: [mkPoint 1 0] ++ [mkPoint 2 0]) 0.5
     = Some [mkPoint 0 0; mkPoint 2 0].
Proof.
  assert (H : (0 <? 0.5)%float = true
              /\ Forall (fun p => gtb (GraphUtils.distanceToLine p (mkPoint 0 0)
                                         (mkPoint 2 0)) 0.5 = false) [mkPoint 1 0]).
  { split; [reflexivity|]. repeat constructor. }
  split; [exact H|].
  apply (proj1 (simplifyPoints_collapses 0 0.5 (mkPoint 0 0) [mkPoint 1 0] (mkPoint 2 0)));
    apply H.
Defined.

(** C8 as stated fails on three points of the abscissa axis whose middle one
    lies beyond the last: it is at distance 1 from the segment between the
    ends, above the tolerance 0.5, and all three points are kept. *)
Lemma simplifyPoints_keeps_a_collinear_point :
  Forall (fun p => y p = 0%float) [mkPoint 0 0; mkPoint 2 0; mkPoint 1 0]
  /\ (0 <? 0.5)%float = true
  /\ GraphUtils.distanceToLine (mkPoint 2 0) (mkPoint 0 0) (mkPoint 1 0) = 1%float
  /\ GraphUtils.simplifyPoints 3 [mkPoint 0 0; mkPoint 2 0; mkPoint 1 0] 0.5
     = Some [mkPoint 0 0; mkPoint 2 0; mkPoint 1 0]
  /\ GraphUtils.simplifyPoints 3 [mkPoint 0 0; mkPoint 2 0; mkPoint 1 0] 0.5
     <> Some [mkPoint 0 0; mkPoint 1 0].
Proof.
  split; [repeat constructor|]. split; [reflexivity|].
  split; [vm_compute; reflexivity|]. split; [vm_compute; reflexivity|].
  vm_compute. discriminate.
Qed.

(** A polyline with a peak and a bump: the peak is kept, the bump is not,
    and the ends stay. *)
Lemma simplifyPoints_subsequence_example :
  (0.5 <? 0)%float = false
  /\ length [mkPoint 0 0; mkPoint 1 5; mkPoint 2 0; mkPoint 3 0.1; mkPoint 4 0] < 6
  /\ GraphUtils.simplifyPoints 6
       [mkPoint 0 0; mkPoint 1 5; mkPoint 2 0; mkPoint 3 0.1; mkPoint 4 0] 0.5
     = Some [mkPoint 0 0; mkPoint 1 5; mkPoint 2 0; mkPoint 4 0]
  /\ exists out,
       GraphUtils.simplifyPoints 6
         [mkPoint 0 0; mkPoint 1 5; mkPoint 2 0; mkPoint 3 0.1; mkPoint 4 0] 0.5
       = Some out
       /\ out `sublist_of`
            [mkPoint 0 0; mkPoint 1 5; mkPoint 2 0; mkPoint 3 0.1; mkPoint 4 0]
       /\ head out = Some (mkPoint 0 0)
       /\ last out = Some (mkPoint 4 0).
Proof.
  split; [reflexivity|]. split; [simpl; lia|]. split; [vm_compute; reflexivity|].
  apply (simplifyPoints_subsequence 0.5 6
           [mkPoint 0 0; mkPoint 1 5; mkPoint 2 0; mkPoint 3 0.1; mkPoint 4 0]);
    [reflexivity|simpl; lia].
Defined.

(** C10 at an input where it fails.  With the tolerance -1 and three points
    of the abscissa axis, no distance exceeds zero, the index of the
    furthest point stays 0, the test against the tolerance succeeds, and the
    second recursive call receives the whole input again: the recursion has
    no end, whatever its depth. *)
Theorem simplifyPoints_negative_tolerance_diverges :
  forall fuel,
    GraphUtils.simplifyPoints fuel [mkPoint 0 0; mkPoint 1 0; mkPoint 2 0] (-1)
    = None.
Proof.
  intros fuel. unfold GraphUtils.simplifyPoints.
  change (length [mkPoint 0 0; mkPoint 1 0; mkPoint 2 0] <=? 2) with false.
  cbv beta iota.
  induction fuel as [|fuel IH]; [reflexivity|].
  rewrite douglasPeucker_unfold. cbv beta iota zeta.
  replace (GraphUtils.furthest [mkPoint 0 0; mkPoint 1 0; mkPoint 2 0] (mkPoint 0 0)
             (default (mkPoint 0 0) (last [mkPoint 0 0; mkPoint 1 0; mkPoint 2 0])))
    with (0%float, 0) by (vm_compute; reflexivity).
  cbv beta iota zeta.
  replace (gtb 0 (-1)) with true by reflexivity.
  change (drop 0 [mkPoint 0 0; mkPoint 1 0; mkPoint 2 0])
    with [mkPoint 0 0; mkPoint 1 0; mkPoint 2 0].
  rewrite IH.
  destruct (GraphUtils.douglasPeucker fuel (take (0 + 1) _) _); reflexivity.
Qed.

(** ** The order of doubles *)

Section DoubleOrder.

Ltac fold_pos_compare := change (PosDef.Pos.compare_cont Eq) with Pos.compare in *.

Lemma SFcompare_antisym x y :
  SFcompare y x = option_map CompOpp (SFcompare x y).
Proof.
  destruct x as [sx|sx| |sx mx ex], y as [sy|sy| |sy my ey]; simpl; try reflexivity;
    try (destruct sx; reflexivity); try (destruct sy; reflexivity);
    try (destruct sx, sy; reflexivity).
  fold_pos_compare; rewrite (Z.compare_antisym ex ey), (Pos.compare_antisym mx my).
  destruct sx, sy; simpl; try reflexivity;
    destruct (ex ?= ey)%Z; simpl; try reflexivity;
    destruct (mx ?= my)%positive; reflexivity.
Qed.

Lemma SFleb_trans x y z :
  SFleb x y = true -> SFleb y z = true -> SFleb x z = true.
Proof.
  unfold SFleb.
  destruct x as [sx|sx| |sx mx ex], y as [sy|sy| |sy my ey], z as [sz|sz| |sz mz ez];
    simpl; try discriminate; try reflexivity;
    try (destruct sx; simpl; try discriminate; try reflexivity);
    try (destruct sy; simpl; try discriminate; try reflexivity);
    try (destruct sz; simpl; try discriminate; try reflexivity).
  all: fold_pos_compare.
  all: destruct (Z.compare_spec ex ey), (Z.compare_spec ey ez), (Z.compare_spec ex ez);
    simpl; try discriminate; try reflexivity; try lia.
  all: destruct (Pos.compare_spec mx my), (Pos.compare_spec my mz), (Pos.compare_spec mx mz);
    simpl; try discriminate; try reflexivity; try lia.
Qed.

Lemma SFcompare_refl s : s <> S754_nan -> SFcompare s s = Some Eq.
Proof.
  destruct s as [sx|sx| |sx mx ex]; simpl; intros H; try congruence.
  - destruct sx; reflexivity.
  - fold_pos_compare. rewrite Z.compare_refl, Pos.compare_refl. destruct sx; reflexivity.
Qed.

Lemma is_nan_spec v : PrimFloat.is_nan v = false <-> Prim2SF v <> S754_nan.
Proof.
  unfold PrimFloat.is_nan. rewrite FloatAxioms.eqb_spec. unfold SFeqb. split.
  - intros H E. rewrite E in H. discriminate.
  - intros H. rewrite (SFcompare_refl _ H). reflexivity.
Qed.

Lemma SFcompare_total s t :
  s <> S754_nan -> t <> S754_nan -> SFcompare s t <> None.
Proof.
  destruct s as [sx|sx| |sx mx ex], t as [sy|sy| |sy my ey]; simpl; congruence.
Qed.

Lemma leb_trans x y z :
  (x <=? y)%float = true -> (y <=? z)%float = true -> (x <=? z)%float = true.
Proof. rewrite !leb_spec. apply SFleb_trans. Qed.

Lemma leb_refl x : PrimFloat.is_nan x = false -> (x <=? x)%float = true.
Proof.
  intros H. apply is_nan_spec in H. rewrite leb_spec. unfold SFleb.
  rewrite (SFcompare_refl _ H). reflexivity.
Qed.

Lemma ltb_leb x y : (x <? y)%float = true -> (x <=? y)%float = true.
Proof.
  rewrite ltb_spec, leb_spec. unfold SFltb, SFleb.
  destruct (SFcompare _ _) as [[| |]|]; congruence.
Qed.

Lemma not_ltb_leb x y :
  PrimFloat.is_nan x = false -> PrimFloat.is_nan y = false ->
  (x <? y)%float = false -> (y <=? x)%float = true.
Proof.
  intros Hx Hy. apply is_nan_spec in Hx. apply is_nan_spec in Hy.
  rewrite ltb_spec, leb_spec. unfold SFltb, SFleb.
  rewrite (SFcompare_antisym (Prim2SF x) (Prim2SF y)).
  pose proof (SFcompare_total _ _ Hx Hy) as Ht.
  destruct (SFcompare (Prim2SF x) (Prim2SF y)) as [[| |]|]; simpl; congruence.
Qed.

Lemma abs_ltb_positive v t :
  (Math_abs v <? t)%float = true -> (0 <? t)%float = true.
Proof.
  unfold Math_abs. rewrite !ltb_spec, abs_spec.
  change (Prim2SF 0) with (S754_zero false). unfold SFltb.
  destruct (Prim2SF v) as [sx|sx| |sx mx ex], (Prim2SF t) as [sy|sy| |sy my ey];
    simpl; try discriminate; try (destruct sy; simpl; congruence).
Qed.

Lemma Math_min_cases a b :
  PrimFloat.is_nan a = false -> PrimFloat.is_nan b = false ->
  (Math_min a b = a \/ Math_min a b = b)
  /\ (Math_min a b <=? a)%float = true
  /\ (Math_min a b <=? b)%float = true.
Proof.
  intros Ha Hb. unfold Math_min. rewrite Ha, Hb. simpl.
  destruct (a <? b)%float eqn:Hab.
  { split; [auto|]. split; [apply leb_refl; assumption|apply ltb_leb; assumption]. }
  destruct (b <? a)%float eqn:Hba.
  { split; [auto|]. split; [apply ltb_leb; assumption|apply leb_refl; assumption]. }
  pose proof (not_ltb_leb a b Ha Hb Hab) as H1.
  pose proof (not_ltb_leb b a Hb Ha Hba) as H2.
  destruct (PrimFloat.get_sign a); (split; [auto|]); split;
    auto using leb_refl.
Qed.

Lemma Math_max_cases a b :
  PrimFloat.is_nan a = false -> PrimFloat.is_nan b = false ->
  (Math_max a b = a \/ Math_max a b = b)
  /\ (a <=? Math_max a b)%float = true
  /\ (b <=? Math_max a b)%float = true.
Proof.
  intros Ha Hb. unfold Math_max. rewrite Ha, Hb. simpl.
  destruct (a <? b)%float eqn:Hab.
  { split; [auto|]. split; [apply ltb_leb; assumption|apply leb_refl; assumption]. }
  destruct (b <? a)%float eqn:Hba.
  { split; [auto|]. split; [apply leb_refl; assumption|apply ltb_leb; assumption]. }
  pose proof (not_ltb_leb a b Ha Hb Hab) as H1.
  pose proof (not_ltb_leb b a Hb Ha Hba) as H2.
  destruct (PrimFloat.get_sign a); (split; [auto|]); split;
    auto using leb_refl.
Qed.

Lemma Math_min_not_nan a b :
  PrimFloat.is_nan a = false -> PrimFloat.is_nan b = false ->
  PrimFloat.is_nan (Math_min a b) = false.
Proof.
  intros Ha Hb. destruct (Math_min_cases a b Ha Hb) as ([->| ->] & _); assumption.
Qed.

Lemma Math_max_not_nan a b :
  PrimFloat.is_nan a = false -> PrimFloat.is_nan b = false ->
  PrimFloat.is_nan (Math_max a b) = false.
Proof.
  intros Ha Hb. destruct (Math_max_cases a b Ha Hb) as ([->| ->] & _); assumption.
Qed.

(** [clamp] keeps a number within the bounds: for numbers that are not NaN
    and bounds in order, the result is between [min] and [max]; it is one of
    the three arguments. *)
Theorem clamp_within value min max :
  PrimFloat.is_nan value = false -> PrimFloat.is_nan min = false ->
  PrimFloat.is_nan max = false -> (min <=? max)%float = true ->
  (min <=? MathUtils.clamp value min max)%float = true
  /\ (MathUtils.clamp value min max <=? max)%float = true
  /\ (MathUtils.clamp value min max = value
      \/ MathUtils.clamp value min max = min
      \/ MathUtils.clamp value min max = max).
Proof.
  intros Hv Hmin Hmax Hle. unfold MathUtils.clamp.
  pose proof (Math_max_cases value min Hv Hmin) as (Hm & _ & Hge).
  pose proof (Math_max_not_nan value min Hv Hmin) as Hn.
  pose proof (Math_min_cases (Math_max value min) max Hn Hmax) as (Hr & _ & Hle2).
  split; [|split].
  - destruct Hr as [-> | ->]; assumption.
  - exact Hle2.
  - destruct Hr as [-> | ->]; [destruct Hm as [-> | ->]|]; auto.
Qed.

(** [setAnimationTime] keeps the clock within the animation: for a time that
    is not NaN and a duration that is not negative, the new current time is
    between 0 and the duration, and nothing else changes. *)
Theorem setAnimationTime_within animationState time :
  PrimFloat.is_nan time = false ->
  (0 <=? CalculatorStore.duration animationState)%float = true ->
  let after := CalculatorStore.setAnimationTime animationState time in
  (0 <=? CalculatorStore.currentTime after)%float = true
  /\ (CalculatorStore.currentTime after <=? CalculatorStore.duration animationState)%float
     = true
  /\ CalculatorStore.duration after = CalculatorStore.duration animationState
  /\ CalculatorStore.isPlaying after = CalculatorStore.isPlaying animationState.
Proof.
  intros Ht Hd after. subst after. simpl.
  set (d := CalculatorStore.duration animationState) in *.
  assert (Hdn : PrimFloat.is_nan d = false).
  { apply is_nan_spec. intros E. rewrite leb_spec, E in Hd.
    change (Prim2SF 0) with (S754_zero false) in Hd. discriminate. }
  pose proof (Math_min_cases time d Ht Hdn) as (Hm & _ & Hle).
  pose proof (Math_min_not_nan time d Ht Hdn) as Hn.
  assert (H0 : PrimFloat.is_nan 0 = false) by reflexivity.
  pose proof (Math_max_cases 0 (Math_min time d) H0 Hn) as (Hr & Hge & _).
  split; [exact Hge|]. split; [|split; reflexivity].
  destruct Hr as [-> | ->]; assumption.
Qed.

End DoubleOrder.

(** The clamp of 7 to the interval from 0 to 5 is 5. *)
Lemma clamp_within_example :
  (PrimFloat.is_nan 7 = false /\ PrimFloat.is_nan 0 = false
   /\ PrimFloat.is_nan 5 = false /\ (0 <=? 5)%float = true)
  /\ MathUtils.clamp 7 0 5 = 5%float
  /\ (0 <=? MathUtils.clamp 7 0 5)%float = true
  /\ (MathUtils.clamp 7 0 5 <=? 5)%float = true.
Proof.
  split; [repeat split|]. split; [reflexivity|].
  pose proof (clamp_within 7 0 5 eq_refl eq_refl eq_refl eq_refl) as (H1 & H2 & _).
  split; assumption.
Defined.

(** Setting the time 12 on the default animation, of duration 10, sets 10. *)
Lemma setAnimationTime_within_example :
  (PrimFloat.is_nan 12 = false /\ (0 <=? 10)%float = true)
  /\ CalculatorStore.currentTime
       (CalculatorStore.setAnimationTime
          (CalculatorStore.mkAnimation false 0 10 1 true (js "t")) 12)
     = 10%float
  /\ (CalculatorStore.currentTime
        (CalculatorStore.setAnimationTime
           (CalculatorStore.mkAnimation false 0 10 1 true (js "t")) 12)
      <=? 10)%float = true.
Proof.
  split; [split; reflexivity|]. split; [reflexivity|].
  pose proof (setAnimationTime_within
                (CalculatorStore.mkAnimation false 0 10 1 true (js "t")) 12
                eq_refl eq_refl) as H.
  cbv zeta in H. destruct H as (_ & H & _). exact H.
Defined.

(** ** Bounds and smoothing of curves *)

Section Curves.

Import GraphUtils.

Lemma within_step b q p :
  PrimFloat.is_nan (minX b) = false -> PrimFloat.is_nan (maxX b) = false ->
  PrimFloat.is_nan (minY b) = false -> PrimFloat.is_nan (maxY b) = false ->
  PrimFloat.is_nan (x q) = false -> PrimFloat.is_nan (y q) = false ->
  within b p ->
  within {| minX := Math_min (minX b) (x q); maxX := Math_max (maxX b) (x q);
            minY := Math_min (minY b) (y q); maxY := Math_max (maxY b) (y q) |} p.
Proof.
  intros H1 H2 H3 H4 Hx Hy (A & B & C & D). unfold within. simpl.
  destruct (Math_min_cases (minX b) (x q) H1 Hx) as (_ & L1 & _).
  destruct (Math_max_cases (maxX b) (x q) H2 Hx) as (_ & L2 & _).
  destruct (Math_min_cases (minY b) (y q) H3 Hy) as (_ & L3 & _).
  destruct (Math_max_cases (maxY b) (y q) H4 Hy) as (_ & L4 & _).
  repeat split; eauto using leb_trans.
Qed.

Lemma calculateBounds_fold (first : Point2D) (l done : list Point2D) b :
  Forall numeric l ->
  PrimFloat.is_nan (minX b) = false -> PrimFloat.is_nan (maxX b) = false ->
  PrimFloat.is_nan (minY b) = false -> PrimFloat.is_nan (maxY b) = false ->
  Forall (within b) done ->
  attained b (first :: done) ->
  let b' :=
    fold_left (fun bounds point =>
                 {| minX := Math_min (minX bounds) (x point);
                    maxX := Math_max (maxX bounds) (x point);
                    minY := Math_min (minY bounds) (y point);
                    maxY := Math_max (maxY bounds) (y point) |}) l b in
  Forall (within b') (done ++ l) /\ attained b' (first :: done ++ l).
Proof.
  revert done b. induction l as [|q l IH]; intros done b Hl H1 H2 H3 H4 Hdone Hatt; simpl.
  - rewrite app_nil_r. auto.
  - inversion Hl as [|? ? [Hx Hy] Hl']; subst.
    destruct (Math_min_cases (minX b) (x q) H1 Hx) as (E1 & _ & L1).
    destruct (Math_max_cases (maxX b) (x q) H2 Hx) as (E2 & _ & L2).
    destruct (Math_min_cases (minY b) (y q) H3 Hy) as (E3 & _ & L3).
    destruct (Math_max_cases (maxY b) (y q) H4 Hy) as (E4 & _ & L4).
    replace (done ++ q :: l) with ((done ++ [q]) ++ l) by (rewrite <- app_assoc; reflexivity).
    apply IH; try (simpl; auto using Math_min_not_nan, Math_max_not_nan; fail).
    + apply Forall_app. split.
      * eapply Forall_impl; [exact Hdone|]. intros p Hp.
        apply within_step; assumption.
      * constructor; [|constructor]. unfold within. simpl. auto.
    + destruct Hatt as (A1 & A2 & A3 & A4). unfold attained.
      cbn [minX maxX minY maxY].
      assert (Hsub : forall v (f : Point2D -> float),
                 v ∈ map f (first :: done) -> v ∈ map f (first :: done ++ [q])).
      { intros v f Hv. rewrite app_comm_cons, map_app. apply elem_of_app. auto. }
      assert (Hq : forall (f : Point2D -> float), f q ∈ map f (first :: done ++ [q])).
      { intros f. rewrite app_comm_cons, map_app. apply elem_of_app. right.
        simpl. apply list_elem_of_here. }
      split; [|split; [|split]].
      * destruct E1 as [-> | ->]; auto.
      * destruct E2 as [-> | ->]; auto.
      * destruct E3 as [-> | ->]; auto.
      * destruct E4 as [-> | ->]; auto.
Qed.

(** The bounds of a set of points without NaN coordinates contain every
    point, and each bound is a coordinate of one of the points: they are
    the smallest rectangle around the points.  Without points, the bounds
    are the default window from -10 to 10. *)
Theorem calculateBounds_contains points :
  Forall numeric points ->
  Forall (within (calculateBounds points)) points
  /\ (points <> [] -> attained (calculateBounds points) points)
  /\ (points = [] ->
      calculateBounds points
      = {| minX := -10; maxX := 10; minY := -10; maxY := 10 |}).
Proof.
  intros Hnum.
  destruct points as [|first rest].
  - split; [constructor|]. split; [congruence|reflexivity].
  - assert (Hfirst := Hnum). inversion Hfirst as [|? ? [Hx Hy] _]; subst.
    pose proof (calculateBounds_fold first (first :: rest) []
                  {| minX := x first; maxX := x first;
                     minY := y first; maxY := y first |}
                  Hnum Hx Hx Hy Hy (Forall_nil_2 _)) as H.
    cbv zeta in H. destruct H as (Hin & A1 & A2 & A3 & A4).
    { unfold attained. cbn. repeat split; apply list_elem_of_here. }
    split; [exact Hin|]. split; [|discriminate].
    intros _. unfold attained, calculateBounds.
    assert (Hdup : forall (f : Point2D -> float) v,
               v ∈ map f (first :: [] ++ first :: rest) -> v ∈ map f (first :: rest)).
    { intros f v Hv. cbn in Hv. cbn.
      apply elem_of_cons in Hv as [->|Hv]; [apply list_elem_of_here|exact Hv]. }
    split; [|split; [|split]]; apply Hdup; assumption.
Qed.

End Curves.

(** The bounds of three points. *)
Lemma calculateBounds_contains_example :
  let points := [mkPoint 1 2; mkPoint 3 (-1); mkPoint (-2) 0.5] in
  GraphUtils.calculateBounds points = GraphUtils.mkBounds (-2) 3 (-1) 2
  /\ Forall (within (GraphUtils.calculateBounds points)) points.
Proof.
  cbv zeta. split; [vm_compute; reflexivity|].
  apply (calculateBounds_contains [mkPoint 1 2; mkPoint 3 (-1); mkPoint (-2) 0.5]).
  repeat constructor.
Defined.

(** A partial map that is defined on every entry of a list keeps the
    length of the list, and maps entry by entry. *)
Lemma omap_defined {A B} (f : A -> option B) (l : list A) :
  Forall (fun a => is_Some (f a)) l ->
  length (omap f l) = length l
  /\ forall k a, l !! k = Some a -> omap f l !! k = f a.
Proof.
  induction 1 as [|a l [b Hb] Hl [IHlen IHget]]; [split; [reflexivity|intros k a Hk; inversion Hk]|].
  cbn. rewrite Hb. split; [cbn; congruence|].
  intros [|k] a' Hk; cbn in *; [congruence|auto].
Qed.

Section Smoothing.

Import GraphUtils.

(** What one index of the smoothing loop pushes. *)
Lemma smoothCurve_defined points (smoothing : float) :
  Forall (fun i =>
            is_Some (if (i =? 0) || (i =? length points - 1)
                     then points !! i
                     else
                       match points !! (i - 1), points !! i, points !! (i + 1) with
                       | Some prev, Some curr, Some next =>
                           Some {| x := (x curr + smoothing * (x prev + x next - 2 * x curr))%float;
                                   y := (y curr + smoothing * (y prev + y next - 2 * y curr))%float |}
                       | _, _, _ => None
                       end))
         (seq 0 (length points)).
Proof.
  apply Forall_forall. intros i Hi. apply elem_of_seq in Hi as [_ Hi]. cbn in Hi.
  destruct ((i =? 0) || (i =? length points - 1)) eqn:E.
  - apply lookup_lt_is_Some. exact Hi.
  - apply orb_false_iff in E as [E0 E1].
    apply Nat.eqb_neq in E0, E1.
    destruct (lookup_lt_is_Some_2 points (i - 1)) as [prev ->]; [lia|].
    destruct (lookup_lt_is_Some_2 points i) as [curr ->]; [lia|].
    destruct (lookup_lt_is_Some_2 points (i + 1)) as [next ->]; [lia|].
    eauto.
Qed.

(** Smoothing keeps the number of points and the two end points, moves an
    interior point towards the middle of its two neighbours in the input
    (not in the smoothed output), and returns a curve of fewer than three
    points as it is. *)
Theorem smoothCurve_keeps_the_ends points (smoothing : float) :
  let smoothed := smoothCurve points smoothing in
  length smoothed = length points
  /\ head smoothed = head points
  /\ last smoothed = last points
  /\ (forall i prev curr next,
        0 < i ->
        points !! (i - 1) = Some prev -> points !! i = Some curr ->
        points !! (i + 1) = Some next ->
        smoothed !! i
        = Some {| x := (x curr + smoothing * (x prev + x next - 2 * x curr))%float;
                  y := (y curr + smoothing * (y prev + y next - 2 * y curr))%float |})
  /\ (length points < 3 -> smoothed = points).
Proof.
  cbv zeta. unfold smoothCurve.
  destruct (length points <? 3) eqn:Hshort.
  - apply Nat.ltb_lt in Hshort. repeat split; try reflexivity.
    intros i prev curr next Hi Hprev Hcurr Hnext.
    apply lookup_lt_Some in Hnext. lia.
  - apply Nat.ltb_ge in Hshort.
    destruct (omap_defined _ _ (smoothCurve_defined points smoothing)) as [Hlen Hget].
    rewrite length_seq in Hlen.
    split; [exact Hlen|]. split; [|split; [|split]].
    + rewrite !head_lookup. rewrite (Hget 0 0); [reflexivity|].
      apply lookup_seq. lia.
    + rewrite !last_lookup, Hlen.
      rewrite (Hget (pred (length points)) (pred (length points)));
        [|apply lookup_seq; lia].
      replace (pred (length points) =? length points - 1) with true
        by (symmetry; apply Nat.eqb_eq; lia).
      rewrite orb_true_r. reflexivity.
    + intros i prev curr next Hi Hprev Hcurr Hnext.
      assert (Hlt := lookup_lt_Some _ _ _ Hnext).
      rewrite (Hget i i); [|apply lookup_seq; lia].
      replace (i =? 0) with false by (symmetry; apply Nat.eqb_neq; lia).
      replace (i =? length points - 1) with false by (symmetry; apply Nat.eqb_neq; lia).
      cbn [orb]. rewrite Hprev, Hcurr, Hnext. reflexivity.
    + lia.
Qed.

End Smoothing.

(** ** The root finder *)

Section NewtonRaphson.

Import MathUtils.

Variable mathjs : jsstring -> scope -> Outcome JsValue.
Variable inOperatorMessage : jsstring.
Variable conversions : Conversions.

Lemma findRoots_loop_returns iterations expression tolerance variables guess root :
  findRoots_loop mathjs inOperatorMessage conversions iterations expression
                 tolerance variables guess = Returns (Some root) ->
  exists x v d,
    isNull (result (safeEvaluate mathjs inOperatorMessage expression
                                 (<[ js "x" := x ]> variables))) = false
    /\ asOperand conversions
         (result (safeEvaluate mathjs inOperatorMessage expression
                               (<[ js "x" := x ]> variables))) = Returns v
    /\ numericalDerivative mathjs inOperatorMessage conversions expression x
                           1e-8 variables = Returns (Some d)
    /\ (Math_abs d <? tolerance)%float = false
    /\ root = (x - v / d)%float
    /\ (Math_abs (root - x) <? tolerance)%float = true.
Proof.
  revert guess. induction iterations as [|iterations IH]; intros guess;
    cbn [findRoots_loop]; [discriminate|].
  cbv zeta.
  destruct (numericalDerivative mathjs inOperatorMessage conversions expression
                                guess 1e-8 variables) as [[d|]|thrown] eqn:Hd;
    cbn [mbind Outcome_bind]; try discriminate.
  destruct (isNull (result (safeEvaluate mathjs inOperatorMessage expression
                                         (<[ js "x" := guess ]> variables))))
    eqn:Hnull; cbn [orb]; [discriminate|].
  destruct (Math_abs d <? tolerance)%float eqn:Hflat; [discriminate|].
  destruct (asOperand conversions
              (result (safeEvaluate mathjs inOperatorMessage expression
                                    (<[ js "x" := guess ]> variables))))
    as [v|thrown] eqn:Hv; cbn [mbind Outcome_bind]; [|discriminate].
  destruct (Math_abs (guess - v / d - guess) <? tolerance)%float eqn:Hclose.
  - intros [= <-]. exists guess, v, d. auto 10.
  - apply IH.
Qed.

(** A root that [findRoots] returns is one Newton step away from an
    iterate [x]: the expression has a result at [x] that is not [null] and
    counts as the number [v], the numerical derivative [d] at [x] is not
    below the tolerance in absolute value, the root is [x - v / d], and it
    lies within the tolerance of [x].  It is the step that is small, not
    the value of the expression at the root, which is never evaluated.  A
    root is returned only with a positive number of iterations and a
    positive tolerance. *)
Theorem findRoots_returns_a_small_step expression initialGuess maxIterations
    tolerance variables root :
  findRoots mathjs inOperatorMessage conversions expression initialGuess
            maxIterations tolerance variables = Returns (Some root) ->
  (0 < maxIterations)%Z
  /\ (0 <? tolerance)%float = true
  /\ exists x v d,
       isNull (result (safeEvaluate mathjs inOperatorMessage expression
                                    (<[ js "x" := x ]> variables))) = false
       /\ asOperand conversions
            (result (safeEvaluate mathjs inOperatorMessage expression
                                  (<[ js "x" := x ]> variables))) = Returns v
       /\ numericalDerivative mathjs inOperatorMessage conversions expression x
                              1e-8 variables = Returns (Some d)
       /\ (Math_abs d <? tolerance)%float = false
       /\ root = (x - v / d)%float
       /\ (Math_abs (root - x) <? tolerance)%float = true.
Proof.
  unfold findRoots. intros H. split; [|split].
  - destruct (Z.to_nat maxIterations) eqn:E; [discriminate|lia].
  - apply findRoots_loop_returns in H as (x & v & d & _ & _ & _ & _ & _ & H).
    eapply abs_ltb_positive. exact H.
  - eapply findRoots_loop_returns. exact H.
Qed.

End NewtonRaphson.

(** The root of [x] from the guess 0: the first step stays at 0. *)
Lemma findRoots_of_the_identity :
  MathUtils.findRoots engineX [] notANumber (js "x") 0 100 1e-10 ∅
  = Returns (Some 0%float)
  /\ (0 <? 1e-10)%float = true.
Proof.
  assert (H : MathUtils.findRoots engineX [] notANumber (js "x") 0 100 1e-10 ∅
              = Returns (Some 0%float))
    by (vm_compute; reflexivity).
  split; [exact H|].
  apply (findRoots_returns_a_small_step engineX [] notANumber (js "x") 0 100
           1e-10 ∅ 0 H).
Defined.

(** ** The classifier and its examples *)

Section Detector.

Import FunctionTypeDetector.

Variable unicodeToLowerCase : jsstring -> jsstring.

(** The classifier answers ten of the twelve function types: no expression
    is classified as recursive or as complex. *)
Theorem detectFunctionType_never_recursive_or_complex expression :
  detectFunctionType unicodeToLowerCase expression <> recursive
  /\ detectFunctionType unicodeToLowerCase expression <> complex.
Proof.
  unfold detectFunctionType. cbv zeta.
  repeat match goal with
         | |- (if ?c then _ else _) <> _ /\ _ => destruct c; [split; discriminate|]
         end.
  split; discriminate.
Qed.

(** The examples that [getFunctionTypeExamples] lists for a type, run
    through the classifier.  For eight types every example is classified
    as the type it is listed for.  For the other four none is: the
    parametric and the polar examples name a trigonometric function or
    write [x =] with a space, and recursive and complex are never
    answered. *)
Theorem getFunctionTypeExamples_classified :
  Forall (fun type =>
            Forall (fun example =>
                      detectFunctionType unicodeToLowerCase example = type)
                   (getFunctionTypeExamples type))
         [linear; quadratic; polynomial; trigonometric; logarithmic;
          exponential; implicit; piecewise]
  /\ map (detectFunctionType unicodeToLowerCase) (getFunctionTypeExamples parametric)
     = [trigonometric; implicit]
  /\ map (detectFunctionType unicodeToLowerCase) (getFunctionTypeExamples polar)
     = [trigonometric; trigonometric]
  /\ map (detectFunctionType unicodeToLowerCase) (getFunctionTypeExamples recursive)
     = [polynomial]
  /\ map (detectFunctionType unicodeToLowerCase) (getFunctionTypeExamples complex)
     = [polynomial; trigonometric].
Proof.
  split; [|repeat split; vm_compute; reflexivity].
  repeat constructor; vm_compute; reflexivity.
Qed.

End Detector.

(** ** The regressions on transformed data *)

Section TransformedRegressions.

Import Statistics.

Variable ss_linearRegression : list (float * float) -> Line.
Variable ss_mean : list float -> float.
Variable Math_pow : float -> float -> float.
Variable toFixed : float -> nat -> jsstring.
Variable Math_log Math_exp : float -> float.

(** The exponential regression throws exactly when fewer than two points
    have a positive ordinate.  Otherwise the line is fitted to the points
    with a positive ordinate only, while the residuals are those of all the
    data, in the order of the data: one per point, 0 at a point whose
    ordinate is zero or negative. *)
Theorem exponentialRegression_residuals data :
  let validData := List.filter (fun point => gtb (y point) 0) data in
  let line :=
    ss_linearRegression (map (fun point => (x point, Math_log (y point))) validData) in
  match exponentialRegression ss_linearRegression ss_mean Math_pow toFixed
                              Math_log Math_exp data with
  | Throws _ => length validData < 2
  | Returns fit =>
      2 <= length validData
      /\ type fit = exponential
      /\ coefficients fit = [Math_exp (b line); m line]
      /\ length (residuals fit) = length data
      /\ forall i point,
           data !! i = Some point -> (y point <=? 0)%float = true ->
           residuals fit !! i = Some 0%float
  end.
Proof.
  cbv zeta. unfold exponentialRegression.
  destruct (length (List.filter (fun point => gtb (y point) 0) data) <? 2) eqn:Hfew.
  - apply Nat.ltb_lt in Hfew. exact Hfew.
  - apply Nat.ltb_ge in Hfew. cbv zeta.
    destruct (sumsOfSquares _ _ _ _) as [total residual].
    cbn [type coefficients residuals].
    split; [exact Hfew|]. split; [reflexivity|]. split; [reflexivity|].
    split; [apply length_map|].
    intros i point Hi Hy. rewrite list_lookup_fmap, Hi. cbn. rewrite Hy. reflexivity.
Qed.

(** The logarithmic regression throws exactly when fewer than two points
    have a positive abscissa.  Otherwise the line is fitted to the points
    with a positive abscissa only, while the residuals are those of all the
    data, in the order of the data: one per point, 0 at a point whose
    abscissa is zero or negative. *)
Theorem logarithmicRegression_residuals data :
  let validData := List.filter (fun point => gtb (x point) 0) data in
  let line :=
    ss_linearRegression (map (fun point => (Math_log (x point), y point)) validData) in
  match logarithmicRegression ss_linearRegression ss_mean Math_pow toFixed
                              Math_log data with
  | Throws _ => length validData < 2
  | Returns fit =>
      2 <= length validData
      /\ type fit = logarithmic
      /\ coefficients fit = [b line; m line]
      /\ length (residuals fit) = length data
      /\ forall i point,
           data !! i = Some point -> (x point <=? 0)%float = true ->
           residuals fit !! i = Some 0%float
  end.
Proof.
  cbv zeta. unfold logarithmicRegression.
  destruct (length (List.filter (fun point => gtb (x point) 0) data) <? 2) eqn:Hfew.
  - apply Nat.ltb_lt in Hfew. exact Hfew.
  - apply Nat.ltb_ge in Hfew. cbv zeta.
    destruct (sumsOfSquares _ _ _ _) as [total residual].
    cbn [type coefficients residuals].
    split; [exact Hfew|]. split; [reflexivity|]. split; [reflexivity|].
    split; [apply length_map|].
    intros i point Hi Hx. rewrite list_lookup_fmap, Hi. cbn. rewrite Hx. reflexivity.
Qed.

End TransformedRegressions.

(** ** Smoothing and the CSV format of data *)

(** A loop over the indices of an array that pushes one entry per index. *)
Lemma omap_indices {A B} (data : list A) (h : nat -> A -> B) :
  omap (fun i => match data !! i with
                 | Some point => Some (h i point)
                 | None => None
                 end) (seq 0 (length data))
  = imap h data.
Proof.
  set (f := fun i => match data !! i with
                     | Some point => Some (h i point)
                     | None => None
                     end).
  destruct (omap_defined f (seq 0 (length data))) as [Hlen Hget].
  { apply Forall_forall. intros i Hi. apply elem_of_seq in Hi as [_ Hi]. cbn in Hi.
    destruct (lookup_lt_is_Some_2 data i Hi) as [point Hpoint].
    unfold f. rewrite Hpoint. eauto. }
  rewrite length_seq in Hlen.
  apply list_eq. intros k. rewrite list_lookup_imap.
  destruct (data !! k) as [point|] eqn:Hk.
  - rewrite (Hget k k); [unfold f; rewrite Hk; reflexivity|].
    apply lookup_seq. split; [reflexivity|]. eapply lookup_lt_Some. exact Hk.
  - apply lookup_ge_None. rewrite Hlen. apply lookup_ge_None. exact Hk.
Qed.

Lemma fmap_imap_same {A B C} (g : B -> C) (k : A -> C) (h : nat -> A -> B)
    (data : list A) :
  (forall i a, g (h i a) = k a) -> map g (imap h data) = map k data.
Proof.
  intros Hg. apply list_eq. intros i.
  rewrite !list_lookup_fmap, list_lookup_imap.
  destruct (data !! i); cbn; [rewrite Hg|]; reflexivity.
Qed.

Section MovingAverage.

Import DataTools.

(** The moving average returns as many points as it is given, in the same
    order and with the abscissa, label, color and size of each: only the
    ordinates change.  A window of one point or less, or of at least as
    many points as the data, returns the data as they are. *)
Theorem smoothData_keeps_the_points data windowSize :
  let smoothed := smoothData data windowSize in
  length smoothed = length data
  /\ map x smoothed = map x data
  /\ map label smoothed = map label data
  /\ map color smoothed = map color data
  /\ map size smoothed = map size data
  /\ ((windowSize <= 1)%Z \/ (Z.of_nat (length data) <= windowSize)%Z ->
      smoothed = data).
Proof.
  cbv zeta. unfold smoothData.
  destruct ((windowSize <=? 1)%Z || (Z.of_nat (length data) <=? windowSize)%Z) eqn:Hwindow.
  - repeat split; reflexivity.
  - cbv zeta.
    rewrite omap_indices.
    split; [apply length_imap|].
    repeat (split; [apply fmap_imap_same; reflexivity|]).
    apply orb_false_iff in Hwindow as [H1 H2].
    apply Z.leb_gt in H1, H2. lia.
Qed.

End MovingAverage.

Lemma split_plain sep s :
  forallb (fun c => negb (c =? sep)%N) s = true -> split sep s = [s].
Proof.
  induction s as [|c s IH]; cbn; [reflexivity|].
  intros H. apply andb_true_iff in H as [Hc Hs].
  apply negb_true_iff in Hc. rewrite Hc, (IH Hs). reflexivity.
Qed.

Lemma split_app sep s rest :
  forallb (fun c => negb (c =? sep)%N) s = true ->
  split sep (s ++ sep :: rest) = s :: split sep rest.
Proof.
  induction s as [|c s IH]; cbn.
  - intros _. rewrite N.eqb_refl. reflexivity.
  - intros H. apply andb_true_iff in H as [Hc Hs].
    apply negb_true_iff in Hc. rewrite Hc, (IH Hs). reflexivity.
Qed.

Lemma split_join sep parts :
  parts <> [] ->
  Forall (fun part => forallb (fun c => negb (c =? sep)%N) part = true) parts ->
  split sep (join [sep] parts) = parts.
Proof.
  intros Hne Hparts. induction Hparts as [|part rest Hpart Hrest IH]; [congruence|].
  cbn [join]. destruct rest as [|next rest].
  - apply split_plain, Hpart.
  - cbn [app]. rewrite split_app by exact Hpart.
    rewrite IH by discriminate. reflexivity.
Qed.

Lemma plain_no_comma s :
  plain s = true -> forallb (fun c => negb (c =? 44)%N) s = true.
Proof.
  unfold plain. rewrite !forallb_forall. intros H c Hc.
  apply H in Hc. apply andb_true_iff in Hc as [Hc _]. exact Hc.
Qed.

Lemma plain_no_line_feed s :
  plain s = true -> forallb (fun c => negb (c =? 10)%N) s = true.
Proof.
  unfold plain. rewrite !forallb_forall. intros H c Hc.
  apply H in Hc. apply andb_true_iff in Hc as [_ Hc]. exact Hc.
Qed.

Lemma trim_fixed s : trimmedStart s -> trimmedStart (rev s) -> trim s = s.
Proof.
  intros Hstart Hend. unfold trim, trimEnd.
  rewrite (trimStart_fixed s Hstart), (trimStart_fixed (rev s) Hend).
  apply rev_involutive.
Qed.

Lemma trim_fixed_end s : trim s = s -> trimmedStart (rev s).
Proof.
  intros H. rewrite <- H. unfold trim, trimEnd. rewrite rev_involutive.
  apply trimStart_trimmed.
Qed.

Lemma trimmedStart_app s rest :
  s <> [] -> trimmedStart s -> trimmedStart (s ++ rest).
Proof. destruct s; [congruence|]. intros _ H. exact H. Qed.

Section CSV.

Import DataTools.

Variable numberToString : float -> jsstring.
Variable parseFloat : jsstring -> float.

Local Abbreviation row := (csvRow numberToString).

Lemma row_plain point :
  portable numberToString parseFloat point ->
  forallb (fun c => negb (c =? 10)%N) (row point) = true.
Proof.
  intros (_ & _ & _ & _ & Px & Py & Pl & _). unfold csvRow.
  rewrite !forallb_app.
  rewrite (plain_no_line_feed _ Px), (plain_no_line_feed _ Py),
    (plain_no_line_feed _ Pl).
  reflexivity.
Qed.

Lemma row_end point :
  portable numberToString parseFloat point -> trimmedStart (rev (row point)).
Proof.
  intros (_ & _ & _ & _ & _ & _ & _ & Hl). unfold csvRow.
  rewrite !rev_app_distr.
  destruct (default [] (label point)) as [|c text] eqn:E.
  - cbn. reflexivity.
  - rewrite <- !app_assoc. apply trimmedStart_app.
    + intros Hnil. apply (f_equal (@length N)) in Hnil.
      rewrite length_rev in Hnil. discriminate.
    + apply trim_fixed_end. exact Hl.
Qed.

Lemma exported_end rows last_ :
  trimmedStart (rev last_) -> last_ <> [] ->
  trimmedStart (rev (join [10%N] (rows ++ [last_]))).
Proof.
  intros Hend Hne. induction rows as [|first rows IH]; cbn [app join].
  - exact Hend.
  - destruct (rows ++ [last_]) as [|next others] eqn:E.
    + destruct rows; discriminate.
    + rewrite rev_app_distr. cbn [app rev]. rewrite <- app_assoc.
      apply trimmedStart_app; [|exact IH].
      intros Hnil. apply (f_equal (@length N)) in Hnil.
      rewrite length_rev in Hnil.
      destruct others as [|? ?]; cbn [join] in Hnil.
      * assert (next = last_) as ->.
        { destruct rows as [|? [|? ?]]; cbn in E; congruence. }
        destruct last_; [congruence|discriminate].
      * rewrite length_app in Hnil. cbn in Hnil. lia.
Qed.

Lemma row_parsed point :
  portable numberToString parseFloat point ->
  (let values := map trim (split 44 (row point)) in
   match values with
   | first :: second :: rest =>
       let x := parseFloat first in
       let y := parseFloat second in
       if negb (PrimFloat.is_nan x) && negb (PrimFloat.is_nan y)
       then Some {| x := x;
                    y := y;
                    label := match rest with
                             | (c :: text) :: _ => Some (c :: text)
                             | _ => None
                             end;
                    color := None;
                    size := None |}
       else None
   | _ => None
   end) = Some (carried point).
Proof.
  intros (Nx & Ny & Rx & Ry & Px & Py & Pl & Hl). cbv zeta. unfold csvRow.
  change (js ",") with [44%N]. cbn [app].
  rewrite (split_app 44 _ _ (plain_no_comma _ Px)).
  rewrite (split_app 44 _ _ (plain_no_comma _ Py)).
  rewrite (split_plain 44 _ (plain_no_comma _ Pl)).
  cbn [map]. rewrite Rx, Ry, Nx, Ny, Hl. cbn [negb andb].
  unfold carried. destruct (label point) as [[|c text]|]; reflexivity.
Qed.

(** Exporting data and parsing the text back returns the data, point by
    point and in order, with what the format carries of each point: the
    coordinates and the label, an empty label read back as no label, and
    neither color nor size.  This holds for data whose numbers print to a
    text that reads back as the same number, and whose fields hold no comma
    and no line feed, the labels having no white space at either end. *)
Theorem parseCSVData_of_exportToCSV data :
  Forall (portable numberToString parseFloat) data ->
  parseCSVData parseFloat (exportToCSV numberToString data) = map carried data.
Proof.
  intros Hdata. unfold exportToCSV, parseCSVData. cbv zeta.
  change (fun point : DataPoint =>
            numberToString (x point) ++ js "," ++ numberToString (y point)
            ++ js "," ++ default [] (label point)) with row.
  induction data as [|final front _] using rev_ind.
  - vm_compute. reflexivity.
  - assert (Hrows : Forall (fun part => forallb (fun c => negb (c =? 10)%N) part = true)
                           (map row (front ++ [final]))).
    { apply Forall_fmap. eapply Forall_impl; [exact Hdata|].
      intros point Hpoint. apply row_plain, Hpoint. }
    assert (Hfinal : portable numberToString parseFloat final).
    { apply Forall_app in Hdata as [_ Hfinal]. inversion Hfinal; assumption. }
    assert (Htext : (js "x,y,label" ++ [10%N]) ++ join [10%N] (map row (front ++ [final]))
                    = join [10%N] (js "x,y,label" :: map row (front ++ [final]))).
    { cbn [join]. rewrite map_app. cbn [map].
      destruct (map row front ++ [row final]) eqn:E;
        [destruct (map row front); discriminate|].
      rewrite <- app_assoc. reflexivity. }
    rewrite Htext.
    rewrite trim_fixed.
    + rewrite split_join; [|discriminate|constructor; [reflexivity|exact Hrows]].
      cbn [drop]. rewrite drop_0.
      clear Htext Hrows Hfinal. induction Hdata as [|point rest Hpoint Hrest IH];
        [reflexivity|].
      cbn [map].
      match goal with
      | |- omap ?f (?a :: ?l) = _ =>
          change (omap f (a :: l))
            with (match f a with Some b => b :: omap f l | None => omap f l end)
      end.
      cbv beta zeta.
      pose proof (row_parsed point Hpoint) as Hparsed. cbv beta zeta in Hparsed.
      rewrite Hparsed. f_equal. exact IH.
    + cbn [join]. destruct (map row (front ++ [final])); reflexivity.
    + rewrite map_app. cbn [map]. rewrite app_comm_cons.
      apply exported_end; [apply row_end, Hfinal|].
      unfold csvRow. intros Hnil. apply (f_equal (@length N)) in Hnil.
      rewrite !length_app in Hnil. cbn in Hnil. lia.
Qed.

End CSV.

(** The round trip on two points: a labelled and coloured one, and a bare
    one. *)
Lemma parseCSVData_of_exportToCSV_example :
  let data :=
    [DataTools.mkData 1 2 (Some (js "a")) (Some (js "red")) None;
     DataTools.mkData 2 1 None None None] in
  DataTools.parseCSVData parseSmall (DataTools.exportToCSV showSmall data)
  = [DataTools.mkData 1 2 (Some (js "a")) None None;
     DataTools.mkData 2 1 None None None].
Proof.
  cbv zeta.
  rewrite (parseCSVData_of_exportToCSV showSmall parseSmall).
  - reflexivity.
  - repeat constructor.
Defined.

(** ** The path of a curve on the canvas *)

Section Drawing.

Import GraphUtils.

Variable toNumber : jsstring -> float.

Lemma drawFunctionCurve_loop_path viewport canvasWidth canvasHeight :
  let screen point :=
    graphToScreen (x point) (y point) viewport canvasWidth canvasHeight in
  forall points firstPoint lastScreenPoint,
    let path :=
      drawFunctionCurve_loop points viewport canvasWidth canvasHeight
                             firstPoint lastScreenPoint in
    length path = length points
    /\ (forall point,
          points !! 0 = Some point -> lastScreenPoint = None ->
          path !! 0
          = Some (if firstPoint
                  then MoveTo (x (screen point)) (y (screen point))
                  else LineTo (x (screen point)) (y (screen point))))
    /\ (forall i previous point,
          points !! i = Some previous -> points !! S i = Some point ->
          path !! S i
          = Some (if gtb (Math_abs (y (screen point) - y (screen previous)))
                         (canvasHeight / 2)
                  then MoveTo (x (screen point)) (y (screen point))
                  else LineTo (x (screen point)) (y (screen point)))).
Proof.
  intros screen points.
  induction points as [|first rest IH]; intros firstPoint lastScreenPoint path.
  - repeat split; intros; discriminate.
  - subst path. cbn [drawFunctionCurve_loop]. cbv zeta.
    fold (screen first).
    specialize (IH false (Some (screen first))). cbv zeta in IH.
    destruct IH as (IHlen & _ & IHnext).
    split; [cbn [length]; congruence|]. split.
    + intros point [= <-] ->. reflexivity.
    + intros [|i] previous point Hprevious Hpoint.
      * cbn in Hprevious, Hpoint. injection Hprevious as <-.
        destruct rest as [|second rest]; [discriminate|].
        cbn in Hpoint. injection Hpoint as <-.
        cbn [drawFunctionCurve_loop lookup list_lookup]. cbv zeta.
        fold (screen second).
        destruct (gtb _ _); reflexivity.
      * cbn in Hprevious, Hpoint.
        change ((?c :: ?l) !! S (S i)) with (l !! S i).
        apply (IHnext i previous point); assumption.
Qed.

(** What drawing a curve does to the canvas.  Without points it does
    nothing.  Otherwise it saves the context, sets the stroke style, the
    line width and the opacity, sets the dash pattern if the style has one,
    draws the path and restores the context.  The path has one command per
    point, at the screen position of the point: it starts with a move, and
    each later point is reached by a line, unless its screen ordinate is
    more than half the canvas height away from that of the point before
    it, which lifts the pen. *)
Theorem drawFunctionCurve_path points viewport canvasWidth canvasHeight style :
  let screen point :=
    graphToScreen (x point) (y point) viewport canvasWidth canvasHeight in
  let commands :=
    drawFunctionCurve toNumber points viewport canvasWidth canvasHeight style in
  (points = [] -> commands = [])
  /\ (points <> [] ->
      exists dash path,
        commands
        = [Save; SetStrokeStyle (color style); SetLineWidth (strokeWidth style);
           SetGlobalAlpha (opacity style)]
          ++ dash ++ [BeginPath] ++ path ++ [Stroke; Restore]
        /\ dash
           = match dashArray style with
             | Some (c :: dashes) =>
                 [SetLineDash (map toNumber (split 44 (c :: dashes)))]
             | _ => []
             end
        /\ length path = length points
        /\ (forall point,
              points !! 0 = Some point ->
              path !! 0 = Some (MoveTo (x (screen point)) (y (screen point))))
        /\ (forall i previous point,
              points !! i = Some previous -> points !! S i = Some point ->
              path !! S i
              = Some (if gtb (Math_abs (y (screen point) - y (screen previous)))
                             (canvasHeight / 2)
                      then MoveTo (x (screen point)) (y (screen point))
                      else LineTo (x (screen point)) (y (screen point))))).
Proof.
  cbv zeta. split; [intros ->; reflexivity|].
  intros Hpoints. destruct points as [|first rest]; [congruence|].
  unfold drawFunctionCurve.
  pose proof (drawFunctionCurve_loop_path viewport canvasWidth canvasHeight
                (first :: rest) true None) as Hloop.
  cbv zeta in Hloop. destruct Hloop as (Hlen & Hfirst & Hnext).
  eexists _, _. split; [reflexivity|]. split; [reflexivity|].
  split; [exact Hlen|]. split; [|exact Hnext].
  intros point Hpoint. apply Hfirst; [exact Hpoint|reflexivity].
Qed.

End Drawing.

(** ** The history of the store *)

Section History.

Import CalculatorStore.

Context {Model : Type}.

Implicit Type state : Store Model.

Lemma at_Some (entries : list Model) index :
  (0 <= index < Z.of_nat (length entries))%Z -> is_Some (at_ entries index).
Proof.
  intros H. unfold at_.
  destruct (index <? 0)%Z eqn:E; [apply Z.ltb_lt in E; lia|].
  apply lookup_lt_is_Some. lia.
Qed.

Lemma restore_consistent state index :
  (Z.of_nat (length (history state)) <= 50)%Z ->
  (0 <= index < Z.of_nat (length (history state)))%Z ->
  consistent (restore state index).
Proof.
  intros Hfull Hindex. unfold restore, consistent.
  destruct (at_ (history state) index); cbn [history historyIndex]; lia.
Qed.

(** Saving, undoing and redoing keep the history consistent: at most 50
    entries, and an index that names one of them. *)
Theorem history_stays_consistent state :
  consistent state ->
  consistent (saveToHistory state)
  /\ consistent (undo state)
  /\ consistent (redo state).
Proof.
  intros Hstate. assert (H := Hstate). destruct H as [Hfull Hindex].
  cbv zeta in Hfull, Hindex. split; [|split].
  - unfold saveToHistory, consistent, sliceTo.
    destruct (50 <=? length (history state)) eqn:Hlimit;
      [apply Nat.leb_le in Hlimit|apply Nat.leb_gt in Hlimit].
    + destruct (historyIndex state + 1 <? 0)%Z eqn:E;
        [apply Z.ltb_lt in E|apply Z.ltb_ge in E];
        cbn [history historyIndex];
        rewrite length_app, length_take, length_drop; cbn [length]; lia.
    + destruct (historyIndex state + 1 + 1 <? 0)%Z eqn:E;
        [apply Z.ltb_lt in E|apply Z.ltb_ge in E];
        cbn [history historyIndex];
        rewrite length_app, length_take; cbn [length]; lia.
  - unfold undo. destruct (0 <? historyIndex state)%Z eqn:E; [|exact Hstate].
    apply Z.ltb_lt in E. apply restore_consistent; lia.
  - unfold redo.
    destruct (historyIndex state <? Z.of_nat (length (history state)) - 1)%Z eqn:E;
      [|exact Hstate].
    apply Z.ltb_lt in E. apply restore_consistent; lia.
Qed.

(** Saving at the end of the history appends the current fields, after
    dropping the oldest entry when the history is full, and the index names
    the entry just saved. *)
Theorem saveToHistory_at_the_end state :
  consistent state ->
  historyIndex state = (Z.of_nat (length (history state)) - 1)%Z ->
  let saved := saveToHistory state in
  history saved
  = (if 50 <=? length (history state)
     then drop 1 (history state) else history state) ++ [model state]
  /\ historyIndex saved = (Z.of_nat (length (history saved)) - 1)%Z
  /\ at_ (history saved) (historyIndex saved) = Some (model state)
  /\ model saved = model state
  /\ errors saved = errors state.
Proof.
  intros [Hfull Hindex] Hend. cbv zeta in Hfull, Hindex. cbv zeta.
  unfold saveToHistory, sliceTo.
  destruct (50 <=? length (history state)) eqn:Hlimit;
    [apply Nat.leb_le in Hlimit|apply Nat.leb_gt in Hlimit].
  - destruct (historyIndex state + 1 <? 0)%Z eqn:E;
      [apply Z.ltb_lt in E; lia|apply Z.ltb_ge in E].
    cbn [history historyIndex model errors].
    rewrite firstn_all2 by (rewrite length_drop; lia).
    split; [reflexivity|]. split; [rewrite length_app, length_drop; cbn [length]; lia|].
    split; [|split; reflexivity].
    unfold at_. destruct (historyIndex state <? 0)%Z eqn:E';
      [apply Z.ltb_lt in E'; lia|].
    rewrite lookup_app_r by (rewrite length_drop; lia).
    rewrite length_drop.
    replace (Z.to_nat (historyIndex state) - (length (history state) - 1)) with 0 by lia.
    reflexivity.
  - destruct (historyIndex state + 1 + 1 <? 0)%Z eqn:E;
      [apply Z.ltb_lt in E; lia|apply Z.ltb_ge in E].
    cbn [history historyIndex model errors].
    rewrite firstn_all2 by lia.
    split; [reflexivity|]. split; [rewrite length_app; cbn [length]; lia|].
    split; [|split; reflexivity].
    unfold at_. destruct (historyIndex state + 1 <? 0)%Z eqn:E';
      [apply Z.ltb_lt in E'; lia|].
    rewrite lookup_app_r by lia.
    replace (Z.to_nat (historyIndex state + 1) - length (history state)) with 0 by lia.
    reflexivity.
Qed.

(** Saving after an undo, in a history that is not full: the entry that
    was undone stays in the history, the entries after it are dropped, the
    current fields are appended, and the index names the entry that was
    undone, not the entry just saved, which is the one a redo loads. *)
Theorem saveToHistory_after_undo state :
  consistent state ->
  (historyIndex state < Z.of_nat (length (history state)) - 1)%Z ->
  length (history state) < 50 ->
  let saved := saveToHistory state in
  history saved
  = take (Z.to_nat (historyIndex state) + 2) (history state) ++ [model state]
  /\ historyIndex saved = (historyIndex state + 1)%Z
  /\ historyIndex saved = (Z.of_nat (length (history saved)) - 2)%Z
  /\ at_ (history saved) (historyIndex saved)
     = at_ (history state) (historyIndex state + 1)
  /\ redo saved
     = {| model := model state; errors := [];
          history := history saved;
          historyIndex := (historyIndex state + 2)%Z |}.
Proof.
  intros [Hfull Hindex] Hback Hroom. cbv zeta in Hfull, Hindex. cbv zeta.
  assert (Hsaved : saveToHistory state
                   = {| model := model state; errors := errors state;
                        history := take (Z.to_nat (historyIndex state) + 2) (history state)
                                   ++ [model state];
                        historyIndex := (historyIndex state + 1)%Z |}).
  { unfold saveToHistory, sliceTo.
    destruct (50 <=? length (history state)) eqn:Hlimit;
      [apply Nat.leb_le in Hlimit; lia|].
    destruct (historyIndex state + 1 + 1 <? 0)%Z eqn:E;
      [apply Z.ltb_lt in E; lia|].
    replace (Z.to_nat (historyIndex state + 1 + 1))
      with (Z.to_nat (historyIndex state) + 2) by lia.
    reflexivity. }
  rewrite Hsaved. cbn [history historyIndex model errors].
  assert (Hlen : length (take (Z.to_nat (historyIndex state) + 2) (history state))
                 = Z.to_nat (historyIndex state) + 2)
    by (rewrite length_take; lia).
  split; [reflexivity|]. split; [reflexivity|].
  split; [rewrite length_app, Hlen; cbn [length]; lia|].
  split.
  - unfold at_. destruct (historyIndex state + 1 <? 0)%Z eqn:E;
      [apply Z.ltb_lt in E; lia|].
    rewrite lookup_app_l by lia. apply lookup_take_lt. lia.
  - unfold redo. cbn [history historyIndex].
    rewrite length_app, Hlen. cbn [length].
    destruct (historyIndex state + 1
              <? Z.of_nat (Z.to_nat (historyIndex state) + 2 + 1) - 1)%Z eqn:E;
      [|apply Z.ltb_ge in E; lia].
    unfold restore, at_. cbn [history historyIndex model errors].
    destruct (historyIndex state + 1 + 1 <? 0)%Z eqn:E';
      [apply Z.ltb_lt in E'; lia|].
    rewrite lookup_app_r by lia. rewrite Hlen.
    replace (Z.to_nat (historyIndex state + 1 + 1) - (Z.to_nat (historyIndex state) + 2))
      with 0 by lia.
    cbn. f_equal. lia.
Qed.

(** Undo steps to the entry before the current one and loads it, clearing
    the errors; at the first entry it does nothing.  A redo after an undo
    comes back to the index it left and loads the entry there: the fields
    are those of the last save, not those the undo replaced. *)
Theorem redo_after_undo state snapshot :
  consistent state ->
  at_ (history state) (historyIndex state) = Some snapshot ->
  (historyIndex state <= 0 -> undo state = state)%Z
  /\ ((0 < historyIndex state)%Z ->
      at_ (history state) (historyIndex state - 1) = Some (model (undo state))
      /\ errors (undo state) = []
      /\ historyIndex (undo state) = (historyIndex state - 1)%Z
      /\ redo (undo state)
         = {| model := snapshot; errors := [];
              history := history state; historyIndex := historyIndex state |}).
Proof.
  intros [Hfull Hindex] Hsnapshot. cbv zeta in Hfull, Hindex. split.
  - intros Hfirst. unfold undo.
    destruct (0 <? historyIndex state)%Z eqn:E; [apply Z.ltb_lt in E; lia|reflexivity].
  - intros Hlater. unfold undo.
    destruct (0 <? historyIndex state)%Z eqn:E; [|apply Z.ltb_ge in E; lia].
    destruct (at_Some (history state) (historyIndex state - 1)) as [previous Hprevious];
      [lia|].
    unfold restore. rewrite Hprevious. cbn [model errors historyIndex].
    split; [reflexivity|]. split; [reflexivity|]. split; [reflexivity|].
    unfold redo. cbn [history historyIndex].
    destruct (historyIndex state - 1 <? Z.of_nat (length (history state)) - 1)%Z eqn:E';
      [|apply Z.ltb_ge in E'; lia].
    unfold restore. cbn [history historyIndex model errors].
    replace (historyIndex state - 1 + 1)%Z with (historyIndex state) by lia.
    rewrite Hsnapshot. reflexivity.
Qed.

End History.

(** A history of two entries with the index at its end: saving, undoing
    and redoing leave a consistent store. *)
Lemma history_stays_consistent_example :
  let state := CalculatorStore.mkStore 7 [] [5; 6] 1 in
  consistent (CalculatorStore.saveToHistory state)
  /\ consistent (CalculatorStore.undo state)
  /\ consistent (CalculatorStore.redo state).
Proof.
  cbv zeta. apply (history_stays_consistent (CalculatorStore.mkStore 7 [] [5; 6] 1)).
  unfold consistent. cbn. lia.
Defined.

(** Saving at the end of a history of two entries gives three, the index
    on the last. *)
Lemma saveToHistory_at_the_end_example :
  let saved := CalculatorStore.saveToHistory (CalculatorStore.mkStore 7 [] [5; 6] 1) in
  CalculatorStore.history saved = [5; 6; 7]
  /\ CalculatorStore.historyIndex saved = 2%Z.
Proof.
  cbv zeta.
  destruct (saveToHistory_at_the_end (CalculatorStore.mkStore 7 [] [5; 6] 1))
    as (Hhistory & Hindex & _).
  - unfold consistent. cbn. lia.
  - reflexivity.
  - split; [exact Hhistory|].
    rewrite Hindex, Hhistory. reflexivity.
Defined.

(** Saving after two undos in a history of three entries: the entry at
    index 1 stays, the index names it, and the saved fields come after. *)
Lemma saveToHistory_after_undo_example :
  let saved := CalculatorStore.saveToHistory (CalculatorStore.mkStore 7 [] [5; 6; 8] 0) in
  CalculatorStore.history saved = [5; 6; 7]
  /\ CalculatorStore.historyIndex saved = 1%Z
  /\ CalculatorStore.model (CalculatorStore.redo saved) = 7.
Proof.
  cbv zeta.
  destruct (saveToHistory_after_undo (CalculatorStore.mkStore 7 [] [5; 6; 8] 0))
    as (Hhistory & Hindex & _ & _ & Hredo).
  - unfold consistent. cbn. lia.
  - cbn. lia.
  - cbn. lia.
  - split; [exact Hhistory|]. split; [exact Hindex|].
    rewrite Hredo. reflexivity.
Defined.

(** Undo and redo in a history of two entries, from unsaved fields: the
    redo loads the entry of the last save. *)
Lemma redo_after_undo_example :
  let state := CalculatorStore.mkStore 7 [] [5; 6] 1 in
  CalculatorStore.model (CalculatorStore.undo state) = 5
  /\ CalculatorStore.redo (CalculatorStore.undo state)
     = CalculatorStore.mkStore 6 [] [5; 6] 1.
Proof.
  cbv zeta.
  destruct (redo_after_undo (CalculatorStore.mkStore 7 [] [5; 6] 1) 6)
    as (_ & H).
  - unfold consistent. cbn. lia.
  - reflexivity.
  - destruct H as (_ & _ & _ & Hredo); [reflexivity|].
    split; [reflexivity|exact Hredo].
Defined.
